(** * GeoSpotlight: the acquisition and aggregation pipeline of [agent.py]

    A shallow embedding of the three stages of the DVF pipeline,

    - [fetch_all_pages_dvf_api]  (cursor-linked pagination, retry with backoff),
    - [refine_dvf_data]          (coercion of raw records, derived prices),
    - [calculate_comprehensive_statistics] (the aggregate report),

    together with the part of the Python runtime they rest on: dynamically
    typed JSON values, the exceptions raised by [int()] and [float()],
    binary64 arithmetic, [round(x, 2)], [sorted], [min], [max] and [sum].

    Python [float] is the kernel's binary64 type [PrimFloat.float], so
    rounding errors of the source are those of the model. *)

From Stdlib Require Import String Ascii ZArith List Bool Floats Lia.
From Stdlib Require Import Permutation Sorted.
Import ListNotations.

Set Warnings "-inexact-float,-register-all".

(* ================================================================= *)
(** ** Binary64 helpers *)

Module PyFloat.

(** The double nearest to the rational [num / den] (ties to even), as
    [strtod] and true division of exactly representable operands give it. *)
Definition nearest_float (num : Z) (den : positive) : float :=
  match num with
  | Z0 => 0%float
  | Zpos p =>
      SF2Prim (SFdiv prec emax (S754_finite false p 0) (S754_finite false den 0))
  | Zneg p =>
      SF2Prim (SFdiv prec emax (S754_finite true p 0) (S754_finite false den 0))
  end.

(** [float(n)] for an integer [n], correctly rounded; an integer beyond the
    range of doubles gives [infinity] here and [OverflowError] in [py_float]. *)
Definition float_of_Z (n : Z) : float :=
  SF2Prim (binary_normalize prec emax n 0 false).

(** The integer nearest to [num / den] for [den > 0], ties to even. *)
Definition round_half_even (num den : Z) : Z :=
  let q := (num / den)%Z in
  let r := (num mod den)%Z in
  match (2 * r ?= den)%Z with
  | Lt => q
  | Gt => (q + 1)%Z
  | Eq => if Z.even q then q else (q + 1)%Z
  end.

(** [round(x, 2)]: CPython prints the exact binary value of [x] with two
    digits after the point (correctly rounded, ties to even) and reads the
    result back as the nearest double; zeros, infinities and NaN come back
    unchanged, and the sign is kept. *)
Definition py_round2 (x : float) : float :=
  match Prim2SF x with
  | S754_finite s m e =>
      let n := match e with
               | Zneg k => round_half_even (100 * Zpos m) (Z.pow_pos 2 k)
               | _ => (100 * Zpos m * 2 ^ e)%Z
               end in
      match n with
      | Z0 => if s then (-0)%float else 0%float
      | _ => nearest_float (if s then (- n)%Z else n) 100
      end
  | _ => x
  end.

Definition is_nan (x : float) : bool :=
  match Prim2SF x with S754_nan => true | _ => false end.

Definition is_infinite (x : float) : bool :=
  match Prim2SF x with S754_infinity _ => true | _ => false end.

(** Truncation toward zero of a finite double ([int(x)]). *)
Definition trunc (x : float) : Z :=
  match Prim2SF x with
  | S754_finite s m e =>
      let a := match e with
               | Zneg k => (Zpos m / Z.pow_pos 2 k)%Z
               | _ => (Zpos m * 2 ^ e)%Z
               end in
      if s then (- a)%Z else a
  | _ => 0%Z
  end.

(** Python's [a > b] on floats. *)
Definition gtb (a b : float) : bool := (b <? a)%float.

(** Strictly positive doubles, [+infinity] included: the values that pass
    the source's [x > 0] tests. *)
Definition positive (x : float) : Prop := gtb x 0 = true.

End PyFloat.

(* ================================================================= *)
(** ** The Python runtime: values, exceptions, builtins *)

Module Py.

(** The exceptions of the pipeline.  [APIError] carries which of the
    source's [raise] statements produced it. *)
Inductive api_failure := AreaTooLarge | HTTPAfterRetries | RequestAfterRetries.

Inductive exn :=
| ValueError
| TypeError
| OverflowError
| ValidationError
| APIError (why : api_failure).

(** A computation that returns or raises. *)
Inductive result (A : Type) :=
| Ok (a : A)
| Raise (e : exn).
Arguments Ok {A} a.
Arguments Raise {A} e.

Definition bind {A B} (c : result A) (k : A -> result B) : result B :=
  match c with
  | Ok a => k a
  | Raise e => Raise e
  end.

(** A decoded JSON value, as [response.json()] hands it to the program. *)
Inductive pyval :=
| PNone
| PBool (b : bool)
| PInt (n : Z)
| PFloat (x : float)
| PStr (s : string)
| PList (l : list pyval)
| PDict (d : list (string * pyval)).

(** Truth value of an object ([bool(v)], and the test of [v or d]). *)
Definition truthy (v : pyval) : bool :=
  match v with
  | PNone => false
  | PBool b => b
  | PInt n => negb (n =? 0)%Z
  | PFloat x => negb (x =? 0)%float
  | PStr s => negb (String.eqb s EmptyString)
  | PList l => match l with [] => false | _ => true end
  | PDict d => match d with [] => false | _ => true end
  end.

(** [v or d]. *)
Definition py_or (v d : pyval) : pyval := if truthy v then v else d.

(** [entry.get(key, default)] on a field that is [None] when the key is absent. *)
Definition get_default (field : option pyval) (default : pyval) : pyval :=
  match field with
  | Some v => v
  | None => default
  end.

(** What the program takes from the interpreter and the C library rather
    than computing itself.  The literal parsers answer [None] where [int(s)]
    or [float(s)] raise [ValueError].  [py_sum] is the builtin [sum] on a
    list of floats (left to right up to CPython 3.11, compensated from
    3.12 on) and [py_pow] is [x ** y], that is libm's [pow]. *)
Class Interpreter := {
  int_of_str : string -> option Z;
  float_of_str : string -> option float;
  py_sum : list float -> float;
  py_pow : float -> float -> float
}.

Section Coercions.
Context {I : Interpreter}.

(** [int(v)]. *)
Definition py_int (v : pyval) : result Z :=
  match v with
  | PNone => Raise TypeError
  | PBool b => Ok (if b then 1 else 0)%Z
  | PInt n => Ok n
  | PFloat x =>
      if PyFloat.is_nan x then Raise ValueError
      else if PyFloat.is_infinite x then Raise OverflowError
      else Ok (PyFloat.trunc x)
  | PStr s =>
      match int_of_str s with
      | Some n => Ok n
      | None => Raise ValueError
      end
  | PList _ | PDict _ => Raise TypeError
  end.

(** [float(v)]. *)
Definition py_float (v : pyval) : result float :=
  match v with
  | PNone => Raise TypeError
  | PBool b => Ok (if b then 1 else 0)%float
  | PInt n =>
      let x := PyFloat.float_of_Z n in
      if PyFloat.is_infinite x then Raise OverflowError else Ok x
  | PFloat x => Ok x
  | PStr s =>
      match float_of_str s with
      | Some x => Ok x
      | None => Raise ValueError
      end
  | PList _ | PDict _ => Raise TypeError
  end.
End Coercions.

(** [sum(xs)] as CPython up to 3.11 computes it: from [0], left to right. *)
Definition sum_left (xs : list float) : float :=
  fold_left (fun acc x => (acc + x)%float) xs 0%float.



(** [sorted(xs)]: a stable sort that compares with [<] only.  Insertion
    from the right keeps equal elements in input order.  (On lists where
    [<] is not a strict weak order, that is with NaN, the result of
    [list.sort] depends on its merge strategy and is not modelled.) *)
Fixpoint insert (x : float) (l : list float) : list float :=
  match l with
  | [] => [x]
  | y :: l' => if (y <? x)%float then y :: insert x l' else x :: l
  end.

Fixpoint py_sorted (l : list float) : list float :=
  match l with
  | [] => []
  | x :: l' => insert x (py_sorted l')
  end.

(** Ascending lists: every element is [<=] all the later ones. *)
Definition ascending (l : list float) : Prop :=
  StronglySorted (fun a b => (a <=? b)%float = true) l.

(** [min(xs)] and [max(xs)]: the first extremal element.  On the empty
    list Python raises [ValueError]; every call of the source is guarded,
    and the model answers [0] there. *)
Definition py_min (l : list float) : float :=
  match l with
  | [] => 0%float
  | x :: xs => fold_left (fun best item => if (item <? best)%float then item else best) xs x
  end.

Definition py_max (l : list float) : float :=
  match l with
  | [] => 0%float
  | x :: xs => fold_left (fun best item => if PyFloat.gtb item best then item else best) xs x
  end.

(** [min] and [max] on integers, [None] on the empty list. *)
Definition int_min (l : list Z) : option Z :=
  match l with
  | [] => None
  | x :: xs => Some (fold_left Z.min xs x)
  end.

Definition int_max (l : list Z) : option Z :=
  match l with
  | [] => None
  | x :: xs => Some (fold_left Z.max xs x)
  end.

(** [len(xs)] as the float it becomes in [total / len(xs)]. *)
Definition float_len {A} (l : list A) : float :=
  PyFloat.float_of_Z (Z.of_nat (List.length l)).

End Py.

(* ================================================================= *)
(** ** Insertion-ordered dictionaries *)

Module Dict.
Section Dict.
Context {K V : Type}.
Variable eqb : K -> K -> bool.

(** A [dict]: keys in order of first insertion, each once. *)
Definition dict := list (K * V).

Fixpoint get (k : K) (d : dict) : option V :=
  match d with
  | [] => None
  | (k', v) :: d' => if eqb k k' then Some v else get k d'
  end.

Definition keys (d : dict) : list K := map fst d.
Definition values (d : dict) : list V := map snd d.

(** [d[k] = f(d[k])] when [k] is present, [d[k] = f(init)] appended
    after the existing keys when it is not. *)
Fixpoint upsert (k : K) (init : V) (f : V -> V) (d : dict) : dict :=
  match d with
  | [] => [(k, f init)]
  | (k', v) :: d' =>
      if eqb k k' then (k', f v) :: d' else (k', v) :: upsert k init f d'
  end.
End Dict.

Arguments dict K V : clear implicits.

(** The grouping idiom of the source:
    [if k not in d: d[k] = []] followed by [d[k].append(e)]. *)
Definition append_to {K E} (eqb : K -> K -> bool) (k : K) (e : E)
    (d : dict K (list E)) : dict K (list E) :=
  upsert eqb k [] (fun es => es ++ [e]) d.

Definition group_by {K E} (eqb : K -> K -> bool) (key : E -> K)
    (l : list E) : dict K (list E) :=
  fold_left (fun d e => append_to eqb (key e) e d) l [].
End Dict.

(* ================================================================= *)
(** ** Module constants of [agent.py] *)

Definition DVF_API_BASE_URL : string :=
  "https://apidf-preprod.cerema.fr/dvf_opendata/mutations/".
Definition DEFAULT_TIMEOUT : Z := 30.
Definition MAX_RETRIES : Z := 3.

(* ================================================================= *)
(** ** [fetch_all_pages_dvf_api] *)

Module Fetcher.
Import Py.

Section Fetch.
(** The type of one element of a page's [results] array. *)
Context {R : Type}.

(** What one call of [requests.get] followed by [raise_for_status] and
    [response.json()] comes to: a decoded page with its [results] and its
    [next] reference, an [HTTPError] carrying the status code, or another
    [RequestException] (connection failure, timeout). *)
Inductive response :=
| Page (results : list R) (next : option string)
| HTTPError (status_code : Z)
| RequestException.

(** What the function does to the outside world, in order. *)
Inductive event :=
| Get (url : string) (params : list (string * pyval))
| Sleep (seconds : Z).

(** The local variables of the function. *)
Record state := {
  api_url : string;
  params : list (string * pyval);
  results : list R;
  page_count : nat;
  retries : Z
}.

(** The local [max_retries = 3]. *)
Definition max_retries : Z := 3.

Definition initial_params (bbox min_year : string) : list (string * pyval) :=
  [ ("in_bbox", PStr bbox);
    ("anneemut_min", PStr min_year);
    ("fields", PStr "all");
    ("format", PStr "json");
    ("valeurfonc_min", PInt 10000);
    ("sbati_min", PInt 10);
    ("ordering", PStr "-anneemut,-datemut") ]%string.

Definition initial_state (bbox min_year : string) : state :=
  {| api_url := DVF_API_BASE_URL;
     params := initial_params bbox min_year;
     results := [];
     page_count := 0;
     retries := max_retries |}.

(** Where one attempt leaves the function. *)
Inductive step_result :=
| Continue (st : state) (slept : list event)
| Return (rs : list R)
| Raised (e : exn).

(** The [except] branches share their bookkeeping: one retry is used up;
    when some are left the function sleeps [2 ** (MAX_RETRIES - retries)]
    seconds and loops, otherwise it raises. *)
Definition retry_or_raise (st : state) (why : api_failure) : step_result :=
  let retries' := (retries st - 1)%Z in
  if (retries' >? 0)%Z
  then
    let wait_time := (2 ^ (MAX_RETRIES - retries'))%Z in
    Continue {| api_url := api_url st; params := params st;
                results := results st; page_count := page_count st;
                retries := retries' |}
             [Sleep wait_time]
  else Raised (APIError why).

(** The body of the inner [while retries > 0] loop on one response. *)
Definition attempt (st : state) (r : response) : step_result :=
  match r with
  | Page page_results next_url =>
      let results' := results st ++ page_results in
      match next_url with
      | Some url =>
          if String.eqb url EmptyString
          then Return results'
          else
            (* [break]: the outer loop starts the next page with a full budget *)
            Continue {| api_url := url; params := [];
                        results := results'; page_count := S (page_count st);
                        retries := max_retries |} []
      | None => Return results'
      end
  | HTTPError status_code =>
      if (status_code =? 403)%Z
      then Raised (APIError AreaTooLarge)
      else retry_or_raise st HTTPAfterRetries
  | RequestException => retry_or_raise st RequestAfterRetries
  end.

(** The head of the loops: a state whose budget is used up leaves the inner
    loop, and the outer [while True] gives it a new one. *)
Definition loop_head (st : state) : state :=
  if (retries st >? 0)%Z then st
  else {| api_url := api_url st; params := params st;
          results := results st; page_count := page_count st;
          retries := max_retries |}.

(** How a run against a finite list of responses ends: the loops have no
    bound of their own, so the function may still be waiting for the network
    when the list is used up. *)
Inductive outcome :=
| Returned (rs : list R)
| Failed (e : exn)
| Pending (st : state).

(** The two nested loops, driven by the responses of the server in the
    order of the calls.  The trace lists every request and every sleep. *)
Fixpoint run (script : list response) (st : state) : outcome * list event :=
  match script with
  | [] => (Pending st, [])
  | r :: script' =>
      let st := loop_head st in
      let request := Get (api_url st) (params st) in
      match attempt st r with
      | Continue st' slept =>
          let '(o, trace) := run script' st' in
          (o, request :: slept ++ trace)
      | Return rs => (Returned rs, [request])
      | Raised e => (Failed e, [request])
      end
  end.

Definition fetch_all_pages_dvf_api (bbox min_year : string)
    (script : list response) : outcome * list event :=
  if String.eqb bbox EmptyString || String.eqb min_year EmptyString
  then (Failed ValidationError, [])
  else run script (initial_state bbox min_year).

(** The failures the function retries: every [RequestException] that is
    not an [HTTPError] with status 403. *)
Definition transient (r : response) : bool :=
  match r with
  | Page _ _ => false
  | HTTPError status_code => negb (status_code =? 403)%Z
  | RequestException => true
  end.

(** The sleeps of a trace, in order. *)
Definition sleeps (trace : list event) : list Z :=
  flat_map (fun ev => match ev with Sleep s => [s] | Get _ _ => [] end) trace.

(** The number of requests of a trace. *)
Definition requests (trace : list event) : nat :=
  List.length (filter (fun ev => match ev with Get _ _ => true | Sleep _ => false end) trace).

End Fetch.

Arguments response R : clear implicits.
Arguments state R : clear implicits.
Arguments outcome R : clear implicits.
Arguments step_result R : clear implicits.

End Fetcher.

(* ================================================================= *)
(** ** [refine_dvf_data] *)

Module Refiner.
Import Py.

(** One element of the [results] array.  A field is [None] when its key is
    absent.  The fields the function converts with [int()], [float()] and
    [bool()] are dynamically typed, and JSON [null] is [Some PNone] there.
    The fields it copies are typed as the DVF schema gives them: for those
    read with [entry.get(key)], [null] and an absent key both read as
    [None]; for those read with a default ([idmutation] and the four
    lists) a [null], which the function would copy as [None], is outside
    the model. *)
Record raw_entry := {
  idmutation : option string;
  datemut : option string;
  anneemut : option pyval;
  coddep : option string;
  l_codinsee : option (list string);
  valeurfonc : option pyval;
  sterr : option pyval;
  sbati : option pyval;
  codtypbien : option string;
  libtypbien : option string;
  libnatmut : option string;
  vefa : option pyval;
  nbpar : option pyval;
  nbparmut : option pyval;
  l_idpar : option (list string);
  l_idparmut : option (list string);
  nbvolmut : option pyval;
  nblocmut : option pyval;
  l_idlocmut : option (list string);
  nbcomm : option pyval
}.

(** The dictionary built for one entry; the keys are the field names. *)
Record refined_entry := {
  mutation_id : string;
  mutation_date : option string;
  mutation_year : Z;
  department_code : option string;
  insee_codes : list string;
  nb_communes : Z;
  land_value : float;
  land_area : float;
  built_area : float;
  price_per_m2 : option float;
  price_per_m2_land : option float;
  property_type_code : option string;
  property_type_label : option string;
  mutation_nature : option string;
  is_vefa : bool;
  nb_parcels : Z;
  nb_parcels_mutated : Z;
  parcel_ids : list string;
  mutated_parcel_ids : list string;
  nb_volumes_mutated : Z;
  nb_locals_mutated : Z;
  local_ids : list string;
  raw_entry_of : raw_entry
}.

Definition or_default {A} (field : option A) (default : A) : A :=
  match field with
  | Some a => a
  | None => default
  end.

(** [round(value / area, 2)] under the guard [area > 0 and value > 0]. *)
Definition price_per_area (value area : float) : option float :=
  if PyFloat.gtb area 0 && PyFloat.gtb value 0
  then Some (PyFloat.py_round2 (value / area)%float)
  else None.

Section Refine.
Context {I : Interpreter}.

Local Notation "x <- c ;; k" := (bind c (fun x => k))
  (at level 61, c at next level, right associativity).

(** The conversions inside the [try] block, in the order of the source. *)
Definition convert_guarded (entry : raw_entry) : result (Z * float * float * float) :=
  mutation_year <- py_int (get_default (anneemut entry) (PInt 0)) ;;
  land_value <- py_float (py_or (get_default (valeurfonc entry) PNone) (PFloat 0)) ;;
  land_area <- py_float (py_or (get_default (sterr entry) PNone) (PFloat 0)) ;;
  built_area <- py_float (py_or (get_default (sbati entry) PNone) (PFloat 0)) ;;
  Ok (mutation_year, land_value, land_area, built_area).

(** The rest of the loop body, after the [try] block. *)
Definition build_entry (entry : raw_entry)
    (converted : Z * float * float * float) : result refined_entry :=
  let '(year, value, l_area, b_area) := converted in
  nb_parcels' <- py_int (get_default (nbpar entry) (PInt 0)) ;;
  nb_parcels_mutated' <- py_int (get_default (nbparmut entry) (PInt 0)) ;;
  nb_volumes_mutated' <- py_int (get_default (nbvolmut entry) (PInt 0)) ;;
  nb_locals_mutated' <- py_int (get_default (nblocmut entry) (PInt 0)) ;;
  nb_communes' <- py_int (get_default (nbcomm entry) (PInt 0)) ;;
  Ok {| mutation_id := or_default (idmutation entry) EmptyString;
        mutation_date := datemut entry;
        mutation_year := year;
        department_code := coddep entry;
        insee_codes := or_default (l_codinsee entry) [];
        nb_communes := nb_communes';
        land_value := value;
        land_area := l_area;
        built_area := b_area;
        price_per_m2 := price_per_area value b_area;
        price_per_m2_land := price_per_area value l_area;
        property_type_code := codtypbien entry;
        property_type_label := libtypbien entry;
        mutation_nature := libnatmut entry;
        is_vefa := truthy (get_default (vefa entry) (PBool false));
        nb_parcels := nb_parcels';
        nb_parcels_mutated := nb_parcels_mutated';
        parcel_ids := or_default (l_idpar entry) [];
        mutated_parcel_ids := or_default (l_idparmut entry) [];
        nb_volumes_mutated := nb_volumes_mutated';
        nb_locals_mutated := nb_locals_mutated';
        local_ids := or_default (l_idlocmut entry) [];
        raw_entry_of := entry |}.

(** One iteration of the [for] loop: [Ok None] is [continue] (the entry is
    skipped with a warning), [Ok (Some r)] appends [r], and [Raise] leaves
    the function.  The handler is [except (ValueError, TypeError)]. *)
Definition refine_entry (entry : raw_entry) : result (option refined_entry) :=
  match convert_guarded entry with
  | Raise ValueError | Raise TypeError => Ok None
  | Raise e => Raise e
  | Ok converted =>
      r <- build_entry entry converted ;;
      Ok (Some r)
  end.

Fixpoint refine_loop (dvf_entries : list raw_entry)
    (refined_entries : list refined_entry) : result (list refined_entry) :=
  match dvf_entries with
  | [] => Ok refined_entries
  | entry :: rest =>
      o <- refine_entry entry ;;
      match o with
      | None => refine_loop rest refined_entries
      | Some r => refine_loop rest (refined_entries ++ [r])
      end
  end.

Definition refine_dvf_data (dvf_entries : list raw_entry) : result (list refined_entry) :=
  match dvf_entries with
  | [] => Ok []
  | _ => refine_loop dvf_entries []
  end.

End Refine.

(** An entry without any key, [{}]. *)
Definition empty_entry : raw_entry :=
  {| idmutation := None; datemut := None; anneemut := None; coddep := None;
     l_codinsee := None; valeurfonc := None; sterr := None; sbati := None;
     codtypbien := None; libtypbien := None; libnatmut := None; vefa := None;
     nbpar := None; nbparmut := None; l_idpar := None; l_idparmut := None;
     nbvolmut := None; nblocmut := None; l_idlocmut := None; nbcomm := None |}.

(** An entry with an identifier, a year, a value and a built area:
    [{'idmutation': id, 'anneemut': year, 'valeurfonc': value, 'sbati': built}]. *)
Definition sale (id : string) (year : Z) (value built : pyval) : raw_entry :=
  {| idmutation := Some id; datemut := None; anneemut := Some (PInt year);
     coddep := None; l_codinsee := None; valeurfonc := Some value; sterr := None;
     sbati := Some built; codtypbien := None; libtypbien := None;
     libnatmut := None; vefa := None; nbpar := None; nbparmut := None;
     l_idpar := None; l_idparmut := None; nbvolmut := None; nblocmut := None;
     l_idlocmut := None; nbcomm := None |}.

(** [entry] with the key ['nbpar'] set to [v]. *)
Definition with_nbpar (v : pyval) (entry : raw_entry) : raw_entry :=
  {| idmutation := idmutation entry; datemut := datemut entry;
     anneemut := anneemut entry; coddep := coddep entry;
     l_codinsee := l_codinsee entry; valeurfonc := valeurfonc entry;
     sterr := sterr entry; sbati := sbati entry; codtypbien := codtypbien entry;
     libtypbien := libtypbien entry; libnatmut := libnatmut entry;
     vefa := vefa entry; nbpar := Some v; nbparmut := nbparmut entry;
     l_idpar := l_idpar entry; l_idparmut := l_idparmut entry;
     nbvolmut := nbvolmut entry; nblocmut := nblocmut entry;
     l_idlocmut := l_idlocmut entry; nbcomm := nbcomm entry |}.

(** [entry] with the key ['anneemut'] set to [v]. *)
Definition with_anneemut (v : pyval) (entry : raw_entry) : raw_entry :=
  {| idmutation := idmutation entry; datemut := datemut entry;
     anneemut := Some v; coddep := coddep entry;
     l_codinsee := l_codinsee entry; valeurfonc := valeurfonc entry;
     sterr := sterr entry; sbati := sbati entry; codtypbien := codtypbien entry;
     libtypbien := libtypbien entry; libnatmut := libnatmut entry;
     vefa := vefa entry; nbpar := nbpar entry; nbparmut := nbparmut entry;
     l_idpar := l_idpar entry; l_idparmut := l_idparmut entry;
     nbvolmut := nbvolmut entry; nblocmut := nblocmut entry;
     l_idlocmut := l_idlocmut entry; nbcomm := nbcomm entry |}.

End Refiner.

(* ================================================================= *)
(** ** [calculate_comprehensive_statistics] *)

Module Statistics.
Import Py Refiner.

(** The keys of the grouping dictionaries: a label, or [None]. *)
Definition label := option string.

Definition label_eqb (a b : label) : bool :=
  match a, b with
  | Some x, Some y => String.eqb x y
  | None, None => true
  | _, _ => false
  end.

(** [financial_stats['price_per_m2']]. *)
Record price_distribution := {
  price_mean : float;
  price_median : float;
  price_min : float;
  price_max : float;
  price_std_dev : float
}.

(** [financial_stats['land_value']] and [financial_stats['built_area']]. *)
Record amount_distribution := {
  amount_mean : float;
  amount_median : float;
  amount_min : float;
  amount_max : float;
  amount_total : float
}.

Record financial := {
  fin_price_per_m2 : price_distribution;
  fin_land_value : amount_distribution;
  fin_built_area : amount_distribution
}.

(** One value of [by_property_type]. *)
Record type_stats := {
  type_count : nat;
  type_valid_price_count : nat;
  type_price_mean : float;
  type_price_median : float;
  type_price_min : float;
  type_price_max : float;
  type_avg_built_area : float;
  type_avg_land_value : float
}.

(** One value of [by_mutation_nature], and of [vefa_vs_classic]. *)
Record group_stats := {
  count : nat;
  valid_price_count : nat;
  avg_price_per_m2 : float;
  avg_land_value : float
}.

Record vefa_split := {
  vefa_group : option group_stats;
  classic_group : option group_stats
}.

Record geographic := {
  departments : Dict.dict label nat;
  communes : Dict.dict string nat;
  nb_unique_departments : nat;
  nb_unique_communes : nat
}.

Record year_span := {
  year_min : option Z;
  year_max : option Z
}.

(** The dictionary [stats]; an empty sub-dictionary [{}] is [None] or [[]]. *)
Record stats := {
  total_transactions : nat;
  valid_price_transactions : nat;
  valid_land_price_transactions : nat;
  year_range : year_span;
  financial_stats : option financial;
  by_property_type : Dict.dict label type_stats;
  by_mutation_nature : Dict.dict label group_stats;
  vefa_vs_classic : vefa_split;
  geographic_stats : geographic
}.

(** What the function returns: the empty dictionary [{}], or [stats]. *)
Inductive report :=
| EmptyDict
| Report (s : stats).

(** [e['price_per_m2'] is not None and e['price_per_m2'] > 0]. *)
Definition valid_price (e : refined_entry) : bool :=
  match price_per_m2 e with
  | Some p => PyFloat.gtb p 0
  | None => false
  end.

Definition valid_land_price (e : refined_entry) : bool :=
  match price_per_m2_land e with
  | Some p => PyFloat.gtb p 0
  | None => false
  end.

(** [e['price_per_m2']] where it is read as a number, that is on entries
    that passed [valid_price]. *)
Definition price (e : refined_entry) : float :=
  match price_per_m2 e with
  | Some p => p
  | None => 0%float
  end.

(** [sorted(xs)[len(xs)//2]]; the index is in range on every non-empty list. *)
Definition median (xs : list float) : float :=
  nth (List.length xs / 2) (py_sorted xs) 0%float.

Section Engine.
Context {I : Interpreter}.

(** [sum(xs) / len(xs)]. *)
Definition mean (xs : list float) : float :=
  (py_sum xs / float_len xs)%float.

(** The population standard deviation of the source, [0] below two values. *)
Definition std_dev (xs : list float) : float :=
  if (1 <? List.length xs)%nat
  then py_pow (py_sum (map (fun p => py_pow (p - py_sum xs / float_len xs)%float 2%float) xs)
               / float_len xs)%float 0.5%float
  else 0%float.

Definition amounts (xs : list float) : amount_distribution :=
  {| amount_mean := mean xs;
     amount_median := median xs;
     amount_min := py_min xs;
     amount_max := py_max xs;
     amount_total := py_sum xs |}.

Definition financial_of (valid_price_data : list refined_entry) : option financial :=
  match valid_price_data with
  | [] => None
  | _ =>
      let prices := map price valid_price_data in
      let land_values := map land_value valid_price_data in
      let built_areas := map built_area valid_price_data in
      Some {| fin_price_per_m2 :=
                {| price_mean := mean prices;
                   price_median := median prices;
                   price_min := py_min prices;
                   price_max := py_max prices;
                   price_std_dev := std_dev prices |};
              fin_land_value := amounts land_values;
              fin_built_area := amounts built_areas |}
  end.

(** The body of [for prop_type, entries in property_types.items()]. *)
Definition type_stats_of (entries : list refined_entry) : option type_stats :=
  let valid_entries := filter valid_price entries in
  match valid_entries with
  | [] => None
  | _ =>
      let prices := map price valid_entries in
      Some {| type_count := List.length entries;
              type_valid_price_count := List.length valid_entries;
              type_price_mean := mean prices;
              type_price_median := median prices;
              type_price_min := py_min prices;
              type_price_max := py_max prices;
              type_avg_built_area := mean (map built_area valid_entries);
              type_avg_land_value := mean (map land_value valid_entries) |}
  end.

(** The body shared by the mutation-nature loop and the two VEFA branches. *)
Definition group_stats_of (entries : list refined_entry) : option group_stats :=
  let valid_entries := filter valid_price entries in
  match valid_entries with
  | [] => None
  | _ =>
      let prices := map price valid_entries in
      Some {| count := List.length entries;
              valid_price_count := List.length valid_entries;
              avg_price_per_m2 := mean prices;
              avg_land_value := mean (map land_value valid_entries) |}
  end.

(** [for k, entries in groups.items(): if valid_entries: out[k] = f(entries)]. *)
Definition per_group {K V} (f : list refined_entry -> option V)
    (groups : Dict.dict K (list refined_entry)) : Dict.dict K V :=
  flat_map (fun kv => match f (snd kv) with
                      | Some v => [(fst kv, v)]
                      | None => []
                      end) groups.

(** The geographic loop: one pass that fills both dictionaries. *)
Definition geo_step
    (acc : Dict.dict label (list refined_entry) * Dict.dict string (list refined_entry))
    (entry : refined_entry) :=
  let '(departments, communes) := acc in
  (Dict.append_to label_eqb (department_code entry) entry departments,
   fold_left (fun communes insee_code => Dict.append_to String.eqb insee_code entry communes)
             (insee_codes entry) communes).

Definition counts {K} (d : Dict.dict K (list refined_entry)) : Dict.dict K nat :=
  map (fun kv => (fst kv, List.length (snd kv))) d.

Definition geographic_of (refined_entries : list refined_entry) : geographic :=
  let '(departments, communes) := fold_left geo_step refined_entries ([], []) in
  {| departments := counts departments;
     communes := counts communes;
     nb_unique_departments := List.length departments;
     nb_unique_communes := List.length communes |}.

Definition calculate_comprehensive_statistics (refined_entries : list refined_entry) : report :=
  match refined_entries with
  | [] => EmptyDict
  | _ =>
      let valid_price_data := filter valid_price refined_entries in
      let valid_land_price_data := filter valid_land_price refined_entries in
      let property_types := Dict.group_by label_eqb property_type_label refined_entries in
      let mutation_natures := Dict.group_by label_eqb mutation_nature refined_entries in
      let vefa_entries := filter is_vefa refined_entries in
      let classic_entries := filter (fun e => negb (is_vefa e)) refined_entries in
      Report
        {| total_transactions := List.length refined_entries;
           valid_price_transactions := List.length valid_price_data;
           valid_land_price_transactions := List.length valid_land_price_data;
           year_range :=
             {| year_min := int_min (map mutation_year refined_entries);
                year_max := int_max (map mutation_year refined_entries) |};
           financial_stats := financial_of valid_price_data;
           by_property_type := per_group type_stats_of property_types;
           by_mutation_nature := per_group group_stats_of mutation_natures;
           vefa_vs_classic :=
             {| vefa_group := group_stats_of vefa_entries;
                classic_group := group_stats_of classic_entries |};
           geographic_stats := geographic_of refined_entries |}
  end.

End Engine.

(** [stats['total_transactions']] on the returned dictionary, [None] when
    the key is missing. *)
Definition get_total_transactions (r : report) : option nat :=
  match r with
  | EmptyDict => None
  | Report s => Some (total_transactions s)
  end.

(** A refined entry as [refine_dvf_data] builds it from a record that
    carries a year, a value, a built area, a property type and INSEE codes
    and nothing else. *)
Definition transaction (year : Z) (value built : float) (kind : label)
    (codes : list string) : refined_entry :=
  {| mutation_id := EmptyString; mutation_date := None; mutation_year := year;
     department_code := None; insee_codes := codes; nb_communes := 0;
     land_value := value; land_area := 0; built_area := built;
     price_per_m2 := price_per_area value built;
     price_per_m2_land := price_per_area value 0;
     property_type_code := None; property_type_label := kind;
     mutation_nature := None; is_vefa := false;
     nb_parcels := 0; nb_parcels_mutated := 0; parcel_ids := [];
     mutated_parcel_ids := []; nb_volumes_mutated := 0; nb_locals_mutated := 0;
     local_ids := []; raw_entry_of := empty_entry |}.

(** The invariant of the refiner on its output: the two prices are the
    derived ones. *)
Definition normalized (r : refined_entry) : Prop :=
  price_per_m2 r = price_per_area (land_value r) (built_area r)
  /\ price_per_m2_land r = price_per_area (land_value r) (land_area r).

(** The number of entries under a key of a dictionary of counts, [0] when
    the key is missing. *)
Definition count_of {K} (eqb : K -> K -> bool) (k : K) (d : Dict.dict K nat) : nat :=
  match Dict.get eqb k d with
  | Some n => n
  | None => 0
  end.







(** The keys of the returned dictionary. *)
Definition report_keys (r : report) : list string :=
  match r with
  | EmptyDict => []
  | Report _ =>
      [ "total_transactions"; "valid_price_transactions";
        "valid_land_price_transactions"; "year_range"; "financial_stats";
        "by_property_type"; "by_mutation_nature"; "vefa_vs_classic";
        "geographic_stats" ]%string
  end.

End Statistics.

(* ================================================================= *)
(** ** Two interpreters to run the model on *)

Module CPython.
Import Py.

Definition digit_of (c : ascii) : option Z :=
  let n := Z.of_nat (nat_of_ascii c) in
  if (48 <=? n)%Z && (n <=? 57)%Z then Some (n - 48)%Z else None.

(** The value of a run of decimal digits read after [acc], with the number
    of digits read; [None] when another character occurs. *)
Fixpoint digits (s : string) (acc : Z) (len : nat) : option (Z * nat) :=
  match s with
  | EmptyString => Some (acc, len)
  | String c s' =>
      match digit_of c with
      | Some d => digits s' (10 * acc + d)%Z (S len)
      | None => None
      end
  end.

Definition unsigned (s : string) : option Z :=
  match digits s 0 0 with
  | Some (n, S _) => Some n
  | _ => None
  end.

(** Plain decimal integer literals: an optional sign and digits. *)
Definition plain_int_of_str (s : string) : option Z :=
  match s with
  | String "-" s' => option_map Z.opp (unsigned s')
  | String "+" s' => unsigned s'
  | _ => unsigned s
  end.

(** The part of [s] before the first ["."], and the part after it. *)
Fixpoint split_point (s : string) : string * option string :=
  match s with
  | EmptyString => (EmptyString, None)
  | String "." s' => (EmptyString, Some s')
  | String c s' => let '(a, b) := split_point s' in (String c a, b)
  end.

Definition unsigned_decimal (s : string) : option (Z * positive) :=
  match split_point s with
  | (whole, None) => option_map (fun n => (n, 1%positive)) (unsigned whole)
  | (whole, Some frac) =>
      match digits whole 0 0, digits frac 0 0 with
      | Some (w, lw), Some (f, lf) =>
          if (0 <? lw + lf)%nat
          then Some (w * 10 ^ Z.of_nat lf + f, Z.to_pos (10 ^ Z.of_nat lf))%Z
          else None
      | _, _ => None
      end
  end.

(** Plain decimal literals: an optional sign, digits, and an optional
    fraction; the value is the nearest double. *)
Definition plain_float_of_str (s : string) : option float :=
  let nearest '(num, den) := PyFloat.nearest_float num den in
  match s with
  | String "-" s' =>
      option_map (fun x => (- x)%float) (option_map nearest (unsigned_decimal s'))
  | String "+" s' => option_map nearest (unsigned_decimal s')
  | _ => option_map nearest (unsigned_decimal s)
  end.

(** A [pow] that is correctly rounded on the two exponents the statistics
    use, [x ** 2] and [x ** 0.5]. *)
Definition pow_2_or_half (x y : float) : float :=
  if (y =? 2)%float then (x * x)%float
  else if (y =? 0.5)%float then sqrt x
  else nan.

(** CPython up to 3.11: [sum] adds from left to right. *)
Definition left_to_right : Interpreter :=
  {| int_of_str := plain_int_of_str;
     float_of_str := plain_float_of_str;
     py_sum := sum_left;
     py_pow := pow_2_or_half |}.


End CPython.

(* ================================================================= *)
(** ** [get_location_info_by_mutation_id] *)

Module Lookup.
Import Py.

(** [d.get(key)] on a decoded JSON object, [None] when the key is absent. *)
Fixpoint json_get (key : string) (d : list (string * pyval)) : option pyval :=
  match d with
  | [] => None
  | (k, v) :: d' => if String.eqb key k then Some v else json_get key d'
  end.

(** [d.get(key, default)]. *)
Definition json_get_default (key : string) (d : list (string * pyval))
    (default : pyval) : pyval :=
  match json_get key d with
  | Some v => v
  | None => default
  end.

(** The dictionary the function returns; the keys are the field names. *)
Record location_info := {
  mutation_id : pyval;
  parcel_ids : pyval;
  mutated_parcel_ids : pyval;
  cadastral_sections : pyval;
  mutation_date : pyval;
  mutation_year : pyval;
  department_code : pyval;
  insee_codes : pyval;
  property_type : pyval;
  land_value : pyval;
  built_area : pyval;
  land_area : pyval
}.

Definition info_of (mutation : list (string * pyval)) : location_info :=
  {| mutation_id := json_get_default "idmutation" mutation PNone;
     parcel_ids := json_get_default "l_idpar" mutation (PList []);
     mutated_parcel_ids := json_get_default "l_idparmut" mutation (PList []);
     cadastral_sections := json_get_default "l_section" mutation (PList []);
     mutation_date := json_get_default "datemut" mutation PNone;
     mutation_year := json_get_default "anneemut" mutation PNone;
     department_code := json_get_default "coddep" mutation PNone;
     insee_codes := json_get_default "l_codinsee" mutation (PList []);
     property_type := json_get_default "libtypbien" mutation PNone;
     land_value := json_get_default "valeurfonc" mutation PNone;
     built_area := json_get_default "sbati" mutation PNone;
     land_area := json_get_default "sterr" mutation PNone |}.

(** What one call of [requests.get] followed by [raise_for_status] and
    [response.json()] comes to: the decoded object of the mutation, an
    [HTTPError] with its status code, or another [RequestException]. *)
Inductive response :=
| Found (mutation : list (string * pyval))
| HTTPError (status_code : Z)
| RequestException.

(** How a run against a finite list of responses ends. *)
Inductive outcome :=
| Returned (info : option location_info)
| Failed (e : exn)
| Pending (retries : Z).

(** The bookkeeping shared by the two [except] branches. *)
Definition retry_or_raise (retries : Z) (why : api_failure)
    : (Z * list Fetcher.event) + exn :=
  let retries' := (retries - 1)%Z in
  if (retries' >? 0)%Z
  then inl (retries', [Fetcher.Sleep (2 ^ (MAX_RETRIES - retries'))%Z])
  else inr (APIError why).

(** The loop [while retries > 0], driven by the responses of the server;
    leaving the loop by its condition reaches the final [return None]. *)
Fixpoint attempts (api_url : string) (script : list response) (retries : Z)
    : outcome * list Fetcher.event :=
  if (retries >? 0)%Z
  then
    match script with
    | [] => (Pending retries, [])
    | r :: script' =>
        let request := Fetcher.Get api_url [] in
        let again (next : (Z * list Fetcher.event) + exn) :=
          match next with
          | inl (retries', slept) =>
              let '(o, trace) := attempts api_url script' retries' in
              (o, request :: slept ++ trace)
          | inr e => (Failed e, [request])
          end in
        match r with
        | Found mutation => (Returned (Some (info_of mutation)), [request])
        | HTTPError status_code =>
            if (status_code =? 404)%Z
            then (Returned None, [request])
            else again (retry_or_raise retries HTTPAfterRetries)
        | RequestException => again (retry_or_raise retries RequestAfterRetries)
        end
    end
  else (Returned None, []).

(** The failures the function retries: all but the status 404. *)
Definition retried (r : response) : bool :=
  match r with
  | Found _ => false
  | HTTPError status_code => negb (status_code =? 404)%Z
  | RequestException => true
  end.

Definition get_location_info_by_mutation_id (mutation_id : string)
    (script : list response) : outcome * list Fetcher.event :=
  if String.eqb mutation_id EmptyString
  then (Failed ValidationError, [])
  else attempts (DVF_API_BASE_URL ++ mutation_id ++ "/") script MAX_RETRIES.

End Lookup.

(* ================================================================= *)
(** ** Scripts of responses for the page fetcher *)

Module Script.
Import Fetcher.
Section Script.
Context {R : Type}.

(** No response 403, and never three failures of one page in a row, [n]
    failures having just occurred. *)
Fixpoint survivable (n : nat) (script : list (response R)) : bool :=
  match script with
  | [] => true
  | Page _ _ :: script' => survivable 0 script'
  | HTTPError status_code :: script' =>
      negb (status_code =? 403)%Z && (n <? 2)%nat && survivable (S n) script'
  | RequestException :: script' => (n <? 2)%nat && survivable (S n) script'
  end.

(** The answers of a server that serves [pages], each with the reference
    to the next one, and then a last page without reference. *)
Definition serve (pages : list (list R * string)) (last : list R)
    : list (response R) :=
  map (fun p => Page (fst p) (Some (snd p))) pages ++ [Page last None].

End Script.
End Script.

(* ================================================================= *)
(** ** The transaction part of [main] *)

Module Pipeline.
Import Py Refiner Statistics.
Section Pipeline.
Context {I : Interpreter}.

(** The entries the refiner keeps: those it neither skips nor fails on. *)
Definition kept (entry : raw_entry) : bool :=
  match refine_entry entry with
  | Ok (Some _) => true
  | _ => false
  end.


End Pipeline.
End Pipeline.

(* ================================================================= *)
(** ** A small input for the statistics *)

Module Sample.
Import Refiner Statistics.

(** [e] with the keys ['department_code'] and ['is_vefa'] set. *)
Definition located (department : label) (vefa : bool) (e : refined_entry)
    : refined_entry :=
  {| mutation_id := mutation_id e; mutation_date := mutation_date e;
     mutation_year := mutation_year e; department_code := department;
     insee_codes := insee_codes e; nb_communes := nb_communes e;
     land_value := land_value e; land_area := land_area e;
     built_area := built_area e; price_per_m2 := price_per_m2 e;
     price_per_m2_land := price_per_m2_land e;
     property_type_code := property_type_code e;
     property_type_label := property_type_label e;
     mutation_nature := mutation_nature e; is_vefa := vefa;
     nb_parcels := nb_parcels e; nb_parcels_mutated := nb_parcels_mutated e;
     parcel_ids := parcel_ids e; mutated_parcel_ids := mutated_parcel_ids e;
     nb_volumes_mutated := nb_volumes_mutated e;
     nb_locals_mutated := nb_locals_mutated e; local_ids := local_ids e;
     raw_entry_of := raw_entry_of e |}.

(** Five sales: three flats in Paris, one of them off-plan, a house
    without department nor value, and a house over two communes. *)
Definition sales : list refined_entry :=
  [ located (Some "75") false
      (transaction 2022 300000 100 (Some "Appartement") ["75101"]);
    located (Some "75") true
      (transaction 2023 450000 90 (Some "Appartement") ["75102"]);
    located None false
      (transaction 2021 0 50 (Some "Maison") []);
    located (Some "92") false
      (transaction 2023 800000 160 (Some "Maison") ["92012"; "92040"]);
    located (Some "75") false
      (transaction 2022 210000 60 (Some "Appartement") ["75101"]) ]%string.

End Sample.

(* ================================================================= *)
(** ** [calculate_median_price_by_type] (the definition in force, the
       second of the two in the file) *)

Module ByType.
Import Py Refiner Statistics.

(** [entry['property_type_label'] == property_type and
     entry['built_area'] > 0 and entry['land_value'] > 0]. *)
Definition of_type (property_type : label) (entry : refined_entry) : bool :=
  label_eqb (property_type_label entry) property_type
  && PyFloat.gtb (built_area entry) 0
  && PyFloat.gtb (land_value entry) 0.

(** The floats of a list without [None], [None] when it holds one. *)
Fixpoint all_floats (l : list (option float)) : option (list float) :=
  match l with
  | [] => Some []
  | Some x :: l' => option_map (cons x) (all_floats l')
  | None :: _ => None
  end.

(** [prices_per_m2_list.sort()] compares every element of a list of two or
    more with another one, and comparing [None] raises [TypeError]; a list
    of one element is not compared at all. *)
Definition calculate_median_price_by_type (data : list refined_entry)
    (property_type : label) : result (option float) :=
  let filtered_entries := filter (of_type property_type) data in
  let prices_per_m2_list := map price_per_m2 filtered_entries in
  match prices_per_m2_list with
  | [] => Ok None
  | [p] => Ok p
  | _ =>
      match all_floats prices_per_m2_list with
      | None => Raise TypeError
      | Some prices =>
          let sorted_prices := py_sorted prices in
          let mid := List.length prices / 2 in
          if Nat.odd (List.length prices)
          then Ok (Some (nth mid sorted_prices 0%float))
          else Ok (Some ((nth (mid - 1) sorted_prices 0 + nth mid sorted_prices 0) / 2)%float)
      end
  end.

End ByType.

(* ================================================================= *)
(** ** [sort_places_by_category] and [retrieve_places_data] *)

Module Places.
Import Py.

(** An element of the Overpass answer: its ["tags"] object when it has
    one.  OpenStreetMap tags map strings to strings. *)
Record place := { place_tags : option (Dict.dict string string) }.

(** [place.get("tags", {}).get(key)]. *)
Definition tag (p : place) (key : string) : option string :=
  match place_tags p with
  | Some tags => Dict.get String.eqb key tags
  | None => None
  end.

(** The truth value of a string. *)
Definition filled (s : string) : bool := negb (String.eqb s "").

Definition category_keys : list string :=
  ["amenity"; "shop"; "office"; "healthcare"; "highway"; "railway"; "aeroway"]%string.

(** The inner loop with its [break]: the first key whose tag is filled,
    with the tag. *)
Fixpoint first_category (p : place) (keys : list string) : option (string * string) :=
  match keys with
  | [] => None
  | key :: keys' =>
      match tag p key with
      | Some category =>
          if filled category then Some (key, category) else first_category p keys'
      | None => first_category p keys'
      end
  end.

(** [f"{key}:{category}"]. *)
Definition unique_category_key (kc : string * string) : string :=
  (fst kc ++ ":" ++ snd kc)%string.

(** [names.add(name)] on a set kept as a list without repetition. *)
Definition add (name : string) (names : list string) : list string :=
  if existsb (String.eqb name) names then names else names ++ [name].

(** One round of the outer loop. *)
Definition file (categorized_places : Dict.dict string (list string)) (p : place)
    : Dict.dict string (list string) :=
  match tag p "name" with
  | Some name =>
      if filled name then
        match first_category p category_keys with
        | Some kc =>
            Dict.upsert String.eqb (unique_category_key kc) [] (add name)
              categorized_places
        | None => categorized_places
        end
      else categorized_places
  | None => categorized_places
  end.

(** The function on the value of [places['elements']]. *)
Definition sort_places_by_category (elements : list place)
    : Dict.dict string (list string) :=
  fold_left file elements [].

(** [s.split(':', 1)] when it gives two parts, [None] when [s] has no
    colon and the list has one element only. *)
Fixpoint split_colon (s : string) : option (string * string) :=
  match s with
  | EmptyString => None
  | String c s' =>
      if Ascii.eqb c ":" then Some (EmptyString, s')
      else
        match split_colon s' with
        | Some (a, b) => Some (String c a, b)
        | None => None
        end
  end.

(** [sorted(names)]: strings compare by code point, which on UTF-8 bytes
    is the order of [String.compare]. *)
Fixpoint insert_name (x : string) (l : list string) : list string :=
  match l with
  | [] => [x]
  | y :: l' => if String.ltb y x then y :: insert_name x l' else x :: l
  end.

Fixpoint sorted_names (l : list string) : list string :=
  match l with
  | [] => []
  | x :: l' => insert_name x (sorted_names l')
  end.

Section Retrieve.
(** [str.capitalize]. *)
Variable capitalize : string -> string.

(** The rows added for one key of the dictionary. *)
Definition rows_of (category subcategory : string) (names : list string)
    : list (list string) :=
  map (fun name => [category; capitalize subcategory; name])
      (filter filled (sorted_names names)).

(** Unpacking [key, subcategory = ...] raises [ValueError] on a key without
    colon. *)
Fixpoint retrieve_places_data (places_by_category : Dict.dict string (list string))
    (category : string) : result (list (list string)) :=
  match places_by_category with
  | [] => Ok []
  | (unique_category_key, names) :: rest =>
      match split_colon unique_category_key with
      | None => Raise ValueError
      | Some (_, subcategory) =>
          match retrieve_places_data rest category with
          | Ok data => Ok (rows_of category subcategory names ++ data)
          | Raise e => Raise e
          end
      end
  end.
End Retrieve.

(** A tag that is missing or empty. *)
Definition unfilled (p : place) (key : string) : Prop :=
  tag p key = None \/ tag p key = Some EmptyString.

(** Names in strictly ascending order. *)
Fixpoint ascending_names (l : list string) : Prop :=
  match l with
  | x :: (y :: _) as l' => String.ltb x y = true /\ ascending_names l'
  | _ => True
  end.

(** A place with these tags. *)
Definition tagged (tags : list (string * string)) : place :=
  {| place_tags := Some tags |}.

End Places.

(** Six elements around a corner: two cafes of the same name, a bench
    without name, a bakery that is also a cafe, a platform whose tag holds
    a colon, and an element without tags. *)
Module Nearby.
Import Places.

Definition elements : list place :=
  [ tagged [("name", "Zinc"); ("amenity", "cafe")];
    tagged [("amenity", "bench")];
    tagged [("name", "Abri"); ("shop", "bakery"); ("amenity", "cafe")];
    tagged [("name", "Zinc"); ("amenity", "cafe")];
    tagged [("name", "Quai 3"); ("railway", "platform:edge")];
    {| place_tags := None |} ]%string.

End Nearby.

(* ================================================================= *)
(** * Properties of the fetcher *)

Section FetcherFacts.
Import Py Fetcher.
Context {R : Type}.

Lemma loop_head_request (st : state R) :
  api_url (loop_head st) = api_url st /\ params (loop_head st) = params st
  /\ results (loop_head st) = results st.
Proof.
  unfold loop_head. destruct (retries st >? 0)%Z; simpl; auto.
Qed.

Lemma loop_head_fresh (st : state R) :
  retries st = max_retries -> loop_head st = st.
Proof.
  intros H. unfold loop_head. rewrite H. reflexivity.
Qed.

(** A run that is still pending goes on with the responses that follow. *)
Lemma run_app (pre rest : list (response R)) :
  forall (st st' : state R) (trace : list event),
    run pre st = (Pending st', trace) ->
    run (pre ++ rest) st =
      (fst (run rest st'), trace ++ snd (run rest st')).
Proof.
  induction pre as [|r pre IH]; intros st st' trace H.
  - simpl in H. inversion H; subst. simpl. destruct (run rest st'); reflexivity.
  - simpl in H |- *.
    destruct (attempt (loop_head st) r) as [st1 slept| |].
    + destruct (run pre st1) as [o t] eqn:E.
      inversion H; subst.
      rewrite (IH _ _ _ E). simpl.
      rewrite <- app_assoc. reflexivity.
    + discriminate.
    + discriminate.
Qed.

(** One transient failure with budget left: the function sleeps
    [2 ** (MAX_RETRIES - retries)] seconds and asks for the same page again. *)
Lemma attempt_transient (st : state R) (r : response R) :
  transient r = true ->
  (1 <? retries st)%Z = true ->
  attempt st r =
    Continue {| api_url := api_url st; params := params st;
                results := results st; page_count := page_count st;
                retries := retries st - 1 |}
             [Sleep (2 ^ (MAX_RETRIES - (retries st - 1)))].
Proof.
  intros Ht Hr. apply Z.ltb_lt in Hr.
  assert (Hgt : (retries st - 1 >? 0)%Z = true) by (apply Z.gtb_lt; lia).
  destruct r as [rs next|code|]; simpl in Ht; try discriminate.
  - apply negb_true_iff in Ht. simpl. rewrite Ht.
    unfold retry_or_raise. rewrite Hgt. reflexivity.
  - simpl. unfold retry_or_raise. rewrite Hgt. reflexivity.
Qed.

(** The last transient failure of the budget raises [APIError]. *)
Lemma attempt_exhausted (st : state R) (r : response R) :
  transient r = true ->
  retries st = 1%Z ->
  exists why, attempt st r = Raised (APIError why).
Proof.
  intros Ht Hr.
  destruct r as [rs next|code|]; simpl in Ht; try discriminate.
  - apply negb_true_iff in Ht. simpl. rewrite Ht.
    unfold retry_or_raise. rewrite Hr. simpl. eauto.
  - simpl. unfold retry_or_raise. rewrite Hr. simpl. eauto.
Qed.

(** C4.  On transient failures (a network error, or an HTTP error other
    than 403) the fetcher asks for the same page again, at most three times
    in all, and sleeps [2] and then [4] seconds in between.  When the third
    attempt brings the last page the function returns the accumulated
    results with that page's data; when it brings a page with a [next]
    reference the page is kept and the run goes on from that reference;
    when the third attempt fails too the whole fetch fails with
    [APIError], after exactly these two sleeps. *)
Theorem transient_failures_retry_with_backoff :
  forall (st : state R) (r1 r2 r3 : response R) (page_results : list R)
         (url : string) (rest : list (response R)),
    retries st = max_retries ->
    transient r1 = true ->
    transient r2 = true ->
    transient r3 = true ->
    url <> EmptyString ->
    let request := Get (api_url st) (params st) in
    let backoff := [request; Sleep 2; request; Sleep 4; request] in
    run (r1 :: r2 :: Page page_results None :: rest) st
      = (Returned (results st ++ page_results), backoff)
    /\ run (r1 :: r2 :: Page page_results (Some url) :: rest) st
      = (fst (run rest {| api_url := url; params := [];
                          results := results st ++ page_results;
                          page_count := S (page_count st);
                          retries := max_retries |}),
         backoff ++ snd (run rest {| api_url := url; params := [];
                                     results := results st ++ page_results;
                                     page_count := S (page_count st);
                                     retries := max_retries |}))
    /\ (exists why, run (r1 :: r2 :: r3 :: rest) st = (Failed (APIError why), backoff))
    /\ sleeps backoff = [2; 4]%Z
    /\ requests backoff = 3.
Proof.
  intros st r1 r2 r3 page_results url rest Hfresh H1 H2 H3 Hurl request backoff.
  assert (E1 : forall tl, run (r1 :: r2 :: tl) st =
            (fst (run tl {| api_url := api_url st; params := params st;
                            results := results st; page_count := page_count st;
                            retries := 1 |}),
             request :: Sleep 2 :: request :: Sleep 4 ::
               snd (run tl {| api_url := api_url st; params := params st;
                              results := results st; page_count := page_count st;
                              retries := 1 |}))).
  { intros tl.
    cbn [run]. rewrite (loop_head_fresh st Hfresh).
    rewrite (attempt_transient st r1 H1) by (rewrite Hfresh; reflexivity).
    rewrite Hfresh.
    match goal with |- context [attempt (loop_head ?s) r2] =>
      change (loop_head s) with s;
      rewrite (attempt_transient s r2 H2) by reflexivity end.
    cbn [retries api_url params results page_count].
    change (max_retries - 1 - 1)%Z with 1%Z.
    match goal with |- context [run tl ?s] => destruct (run tl s) as [o t] end.
    reflexivity. }
  repeat split.
  - rewrite E1. reflexivity.
  - rewrite E1. cbn [run loop_head retries Z.gtb Z.compare attempt
                     api_url params results page_count].
    destruct (String.eqb url EmptyString) eqn:Eu.
    + apply String.eqb_eq in Eu. contradiction.
    + match goal with |- context [run rest ?s] => destruct (run rest s) as [o t] end.
      reflexivity.
  - destruct (attempt_exhausted
                {| api_url := api_url st; params := params st;
                   results := results st; page_count := page_count st;
                   retries := 1 |} r3 H3 eq_refl) as [why Hwhy].
    exists why. rewrite E1. cbn [run loop_head retries Z.gtb Z.compare].
    rewrite Hwhy. reflexivity.
Qed.

(** C5.  At whatever attempt it comes (first or retry, first page or a
    later one), the response 403 ends the fetch at once with [APIError]:
    the trace grows by that one request, no sleep and no further request
    follows whatever the server would have answered next, and the pages
    accumulated so far are not returned. *)
Theorem http_403_is_fatal_at_once :
  forall (pre rest : list (response R)) (st st' : state R) (trace : list event),
    run pre st = (Pending st', trace) ->
    run (pre ++ HTTPError 403 :: rest) st
      = (Failed (APIError AreaTooLarge), trace ++ [Get (api_url st') (params st')])
    /\ sleeps (trace ++ [Get (api_url st') (params st')]) = sleeps trace
    /\ requests (trace ++ [Get (api_url st') (params st')]) = S (requests trace).
Proof.
  intros pre rest st st' trace H.
  destruct (loop_head_request st') as (Hu & Hp & _).
  repeat split.
  - rewrite (run_app pre _ _ _ _ H). simpl. rewrite Hu, Hp. reflexivity.
  - unfold sleeps. rewrite flat_map_app. simpl. apply app_nil_r.
  - unfold requests. rewrite filter_app, length_app. simpl. lia.
Qed.

End FetcherFacts.

(** C4 at work on a whole fetch: a timeout, then a 500, then the only page. *)
Lemma transient_failures_retry_with_backoff_witness :
  Fetcher.fetch_all_pages_dvf_api "2.29,48.85,2.30,48.86" "2022"
    [Fetcher.RequestException; Fetcher.HTTPError 500; Fetcher.Page [7; 8] None]
  = (Fetcher.Returned [7; 8],
     let request := Fetcher.Get DVF_API_BASE_URL
                      (Fetcher.initial_params "2.29,48.85,2.30,48.86" "2022") in
     [request; Fetcher.Sleep 2; request; Fetcher.Sleep 4; request]).
Proof.
  exact (proj1 (transient_failures_retry_with_backoff
                  (Fetcher.initial_state "2.29,48.85,2.30,48.86" "2022")
                  Fetcher.RequestException (Fetcher.HTTPError 500)
                  Fetcher.RequestException [7; 8] "page2" []
                  eq_refl eq_refl eq_refl eq_refl
                  ltac:(discriminate))).
Defined.

(** C5 at work: the first page arrives, the request for the second fails
    once and is answered 403 on the retry. *)
Lemma http_403_is_fatal_at_once_witness :
  Fetcher.fetch_all_pages_dvf_api "2.29,48.85,2.30,48.86" "2022"
    ([Fetcher.Page [7; 8] (Some "page2"%string); Fetcher.RequestException]
       ++ Fetcher.HTTPError 403 :: [Fetcher.Page [9] None])
  = (Fetcher.Failed (Py.APIError Py.AreaTooLarge),
     [Fetcher.Get DVF_API_BASE_URL
        (Fetcher.initial_params "2.29,48.85,2.30,48.86" "2022");
      Fetcher.Get "page2" []; Fetcher.Sleep 2; Fetcher.Get "page2" []]).
Proof.
  exact (proj1 (http_403_is_fatal_at_once
                  [Fetcher.Page [7; 8] (Some "page2"%string); Fetcher.RequestException]
                  [Fetcher.Page [9] None]
                  (Fetcher.initial_state "2.29,48.85,2.30,48.86" "2022")
                  _ _ eq_refl)).
Defined.

(* ================================================================= *)
(** * Properties of the refiner *)

Section RefinerFacts.
Import Py Refiner.
Context {I : Interpreter}.

(** The two derived prices of a refined entry are functions of its own
    value and areas. *)
Lemma build_entry_prices (entry : raw_entry) (c : Z * float * float * float)
    (r : refined_entry) :
  build_entry entry c = Ok r ->
  price_per_m2 r = price_per_area (land_value r) (built_area r)
  /\ price_per_m2_land r = price_per_area (land_value r) (land_area r).
Proof.
  destruct c as [[[year value] l_area] b_area]. unfold build_entry, bind.
  destruct (py_int (get_default (nbpar entry) (PInt 0))); [|discriminate].
  destruct (py_int (get_default (nbparmut entry) (PInt 0))); [|discriminate].
  destruct (py_int (get_default (nbvolmut entry) (PInt 0))); [|discriminate].
  destruct (py_int (get_default (nblocmut entry) (PInt 0))); [|discriminate].
  destruct (py_int (get_default (nbcomm entry) (PInt 0))); [|discriminate].
  intros H. inversion H; subst; clear H. simpl. auto.
Qed.

Lemma refine_entry_prices (entry : raw_entry) (r : refined_entry) :
  refine_entry entry = Ok (Some r) ->
  price_per_m2 r = price_per_area (land_value r) (built_area r)
  /\ price_per_m2_land r = price_per_area (land_value r) (land_area r).
Proof.
  unfold refine_entry.
  destruct (convert_guarded entry) as [c|e].
  - unfold bind. destruct (build_entry entry c) as [r'|e] eqn:E; [|discriminate].
    intros H. inversion H; subst. exact (build_entry_prices _ _ _ E).
  - destruct e; discriminate.
Qed.

(** A failure of a conversion inside the [try] block that the handler
    names skips the entry and nothing else. *)
Lemma guarded_failure_skips (entry : raw_entry) (rest : list raw_entry)
    (acc : list refined_entry) :
  convert_guarded entry = Raise ValueError \/ convert_guarded entry = Raise TypeError ->
  refine_loop (entry :: rest) acc = refine_loop rest acc.
Proof.
  intros [H|H]; simpl; unfold refine_entry; rewrite H; reflexivity.
Qed.

(** An exception of the loop body that no handler catches leaves the
    function, whatever was refined before and whatever follows. *)
Lemma uncaught_failure_aborts (entry : raw_entry) (e : exn) :
  refine_entry entry = Raise e ->
  forall (before rest : list raw_entry) (acc acc' : list refined_entry),
    refine_loop before acc = Ok acc' ->
    refine_loop (before ++ entry :: rest) acc = Raise e.
Proof.
  intros H before. induction before as [|b before IH]; intros rest acc acc' Hb.
  - simpl. rewrite H. reflexivity.
  - simpl in Hb |- *. destruct (refine_entry b) as [[r|]|e']; simpl in Hb |- *.
    + eapply IH; eauto.
    + eapply IH; eauto.
    + discriminate.
Qed.

(** When no entry raises past the handler, the function returns what the
    entries refine to, in input order, the skipped ones left out. *)
Lemma refine_loop_in_order (l : list raw_entry) :
  (forall e, In e l -> exists o, refine_entry e = Ok o) ->
  forall acc,
    refine_loop l acc =
      Ok (acc ++ flat_map (fun e => match refine_entry e with
                                    | Ok (Some r) => [r]
                                    | _ => []
                                    end) l).
Proof.
  induction l as [|e l IH]; intros Hok acc; simpl.
  - rewrite app_nil_r. reflexivity.
  - destruct (Hok e (or_introl eq_refl)) as [o Ho]. rewrite Ho. simpl.
    destruct o as [r|].
    + rewrite IH by (intros e' He'; apply Hok; right; exact He').
      rewrite <- app_assoc. reflexivity.
    + apply IH. intros e' He'. apply Hok. right. exact He'.
Qed.



(** [x == 0] rules out [x > 0]. *)
Lemma zero_is_not_positive (x : float) :
  (x =? 0)%float = true -> PyFloat.gtb x 0 = false.
Proof.
  unfold PyFloat.gtb. rewrite eqb_spec, ltb_spec.
  change (Prim2SF 0) with (S754_zero false).
  destruct (Prim2SF x) as [s|s| |s m e]; try destruct s; compute; congruence.
Qed.

(** C1 (what the code does).  A record whose [nbpar] is JSON [null] makes
    [int(None)] raise [TypeError] after the [try] block, and the exception
    leaves [refine_dvf_data]: the two well-formed records around it are
    lost with it.  The same record with the [null] under [anneemut], inside
    the [try] block, is skipped and the other two are returned in order.
    An infinite [anneemut] makes [int()] raise [OverflowError] inside the
    [try] block, which the handler does not name: the function fails too. *)
Theorem refine_aborts_outside_try :
  let first := sale "a" 2022 (PInt 300000) (PInt 100) in
  let second := sale "b" 2022 (PInt 250000) (PInt 80) in
  let third := sale "c" 2023 (PInt 200000) (PInt 50) in
  refine_dvf_data [first; with_nbpar PNone second; third] = Raise TypeError
  /\ refine_dvf_data [first; with_anneemut (PFloat infinity) second; third]
     = Raise OverflowError
  /\ option_map (map mutation_id)
       (match refine_dvf_data [first; with_anneemut PNone second; third] with
        | Ok l => Some l
        | Raise _ => None
        end) = Some ["a"; "c"]%string.
Proof.
  repeat split; vm_compute; reflexivity.
Qed.


(** C6 (amended).  [price_per_m2] is absent exactly when [built_area] and
    [land_value] are not both [> 0], in particular when one of them is zero;
    when present it is the quotient rounded to two decimals; and a built
    area of 100 with a value of 250000 gives 2500. *)
Theorem price_per_m2_rule :
  forall (entry : raw_entry) (r : refined_entry),
    refine_entry entry = Ok (Some r) ->
    (price_per_m2 r = None <->
       PyFloat.gtb (built_area r) 0 && PyFloat.gtb (land_value r) 0 = false)
    /\ ((built_area r =? 0)%float = true \/ (land_value r =? 0)%float = true ->
        price_per_m2 r = None)
    /\ (forall p, price_per_m2 r = Some p ->
          p = PyFloat.py_round2 (land_value r / built_area r)%float)
    /\ (built_area r = 100%float -> land_value r = 250000%float ->
        price_per_m2 r = Some 2500%float).
Proof.
  intros entry r H. destruct (refine_entry_prices entry r H) as [H1 _].
  rewrite H1. unfold price_per_area.
  repeat split.
  - destruct (PyFloat.gtb (built_area r) 0 && PyFloat.gtb (land_value r) 0);
      [discriminate | reflexivity].
  - intros E. rewrite E. reflexivity.
  - intros [E|E]; apply zero_is_not_positive in E; rewrite E;
      [reflexivity | rewrite andb_false_r; reflexivity].
  - intros p. destruct (PyFloat.gtb (built_area r) 0 && PyFloat.gtb (land_value r) 0);
      intros E; inversion E; reflexivity.
  - intros Eb Ev. rewrite Eb, Ev. vm_compute. reflexivity.
Qed.

End RefinerFacts.

(** The integer that [round(x, 2)] extracts from the exact value of [x] is
    a nearest one: it is off the exact quotient by half a unit at most. *)
Lemma round_half_even_nearest (num den : Z) :
  (0 < den)%Z ->
  (2 * Z.abs (num - PyFloat.round_half_even num den * den) <= den)%Z.
Proof.
  intros Hden. unfold PyFloat.round_half_even.
  pose proof (Z.div_mod num den ltac:(lia)) as Hdm.
  pose proof (Z.mod_pos_bound num den Hden) as Hr.
  destruct (Z.compare_spec (2 * (num mod den)) den) as [E|E|E].
  - destruct (Z.even (num / den)); nia.
  - nia.
  - nia.
Qed.

(** C6 as stated fails: a value of 100 on a built area of 3 is refined to
    the price 33.33, and the quotient of the refined value by the refined
    area is 33.333333333333336. *)
Lemma price_per_m2_is_not_the_quotient :
  exists r : Refiner.refined_entry,
    Refiner.refine_entry (I := CPython.left_to_right)
      (Refiner.sale "a" 2022 (Py.PInt 100) (Py.PInt 3)) = Py.Ok (Some r)
    /\ Refiner.price_per_m2 r = Some 33.33%float
    /\ (Refiner.land_value r / Refiner.built_area r)%float = 33.333333333333336%float
    /\ Refiner.price_per_m2 r
         <> Some (Refiner.land_value r / Refiner.built_area r)%float.
Proof.
  eexists. split; [vm_compute; reflexivity|].
  split; [vm_compute; reflexivity|].
  split; [vm_compute; reflexivity|].
  intros H.
  apply (f_equal (fun o => match o with Some x => Prim2SF x | None => S754_nan end)) in H.
  vm_compute in H. discriminate H.
Qed.

(** C6 (amended) on the example of the specification: 250000 for 100 square metres. *)
Lemma price_per_m2_rule_witness :
  exists r : Refiner.refined_entry,
    Refiner.refine_entry (I := CPython.left_to_right)
      (Refiner.sale "a" 2022 (Py.PInt 250000) (Py.PInt 100)) = Py.Ok (Some r)
    /\ Refiner.price_per_m2 r = Some 2500%float.
Proof.
  eexists. split; [vm_compute; reflexivity|].
  refine (proj2 (proj2 (proj2
            (price_per_m2_rule (I := CPython.left_to_right)
               (Refiner.sale "a" 2022 (Py.PInt 250000) (Py.PInt 100)) _ _))) _ _);
    vm_compute; reflexivity.
Defined.


(* ================================================================= *)
(** * The order of positive doubles, [sorted], [min] and [max] *)

Section FloatOrder.
Import Py.
Local Open Scope float_scope.

(** A double that passes [x > 0] is [+infinity] or a positive finite value. *)
Lemma positive_cases (x : float) :
  PyFloat.positive x ->
  Prim2SF x = S754_infinity false \/ exists m e, Prim2SF x = S754_finite false m e.
Proof.
  unfold PyFloat.positive, PyFloat.gtb. rewrite ltb_spec.
  change (Prim2SF 0) with (S754_zero false).
  destruct (Prim2SF x) as [s|s| |s m e]; try destruct s; compute;
    try congruence; eauto.
Qed.

Ltac float_cases x H :=
  let m := fresh "m" in
  let e := fresh "e" in
  let E := fresh "E" in
  destruct (positive_cases x H) as [E|(m & e & E)].

Ltac order_crunch :=
  unfold SFltb, SFleb, SFcompare;
  repeat match goal with
  | |- context [(?a ?= ?b)%Z] => destruct (Z.compare_spec a b); subst
  | |- context [PosDef.Pos.compare_cont Eq ?a ?b] =>
      change (PosDef.Pos.compare_cont Eq a b) with (Pos.compare a b);
      destruct (Pos.compare_spec a b); subst
  end; try congruence; try lia.

Lemma lt_asym (x y : float) :
  PyFloat.positive x -> PyFloat.positive y ->
  (x <? y) = true -> (y <? x) = false.
Proof.
  intros Hx Hy. float_cases x Hx; float_cases y Hy;
    rewrite !ltb_spec, ?E, ?E0; order_crunch.
Qed.

Lemma lt_irrefl (x : float) : PyFloat.positive x -> (x <? x) = false.
Proof.
  intros Hx. float_cases x Hx; rewrite !ltb_spec, ?E; order_crunch.
Qed.



Lemma le_trans (x y z : float) :
  PyFloat.positive x -> PyFloat.positive y -> PyFloat.positive z ->
  (y <? x) = false -> (z <? y) = false -> (z <? x) = false.
Proof.
  intros Hx Hy Hz. float_cases x Hx; float_cases y Hy; float_cases z Hz;
    rewrite !ltb_spec, ?E, ?E0, ?E1; order_crunch.
Qed.

(** On positive doubles [a <= b] says that [b] is not below [a]. *)
Lemma leb_not_lt (a b : float) :
  PyFloat.positive a -> PyFloat.positive b ->
  (a <=? b) = negb (b <? a).
Proof.
  intros Ha Hb. float_cases a Ha; float_cases b Hb;
    rewrite leb_spec, ltb_spec, ?E, ?E0; order_crunch; reflexivity.
Qed.

(** *** [sorted] *)

Lemma insert_perm (x : float) (l : list float) :
  Permutation (insert x l) (x :: l).
Proof.
  induction l as [|y l IH]; simpl.
  - apply Permutation_refl.
  - destruct (y <? x).
    + apply perm_trans with (y :: x :: l).
      * apply perm_skip, IH.
      * apply perm_swap.
    + apply Permutation_refl.
Qed.

Lemma py_sorted_perm (l : list float) : Permutation (py_sorted l) l.
Proof.
  induction l as [|x l IH]; simpl.
  - apply perm_nil.
  - apply perm_trans with (x :: py_sorted l).
    + apply insert_perm.
    + apply perm_skip, IH.
Qed.

Lemma py_sorted_length (l : list float) :
  List.length (py_sorted l) = List.length l.
Proof.
  apply Permutation_length, py_sorted_perm.
Qed.

Lemma py_sorted_positive (l : list float) :
  Forall PyFloat.positive l -> Forall PyFloat.positive (py_sorted l).
Proof.
  intros H. eapply Permutation_Forall; [|exact H].
  apply Permutation_sym, py_sorted_perm.
Qed.

Lemma insert_ascending (x : float) (l : list float) :
  PyFloat.positive x -> Forall PyFloat.positive l ->
  ascending l -> ascending (insert x l).
Proof.
  intros Hx Hl Hs. induction Hs as [|y l Hs IH Hy]; simpl.
  - constructor; constructor.
  - inversion Hl as [|? ? Py Pl]; subst.
    destruct (y <? x) eqn:E.
    + constructor.
      * apply IH, Pl.
      * eapply Permutation_Forall.
        { apply Permutation_sym, insert_perm. }
        constructor; [|exact Hy].
        rewrite leb_not_lt by assumption.
        rewrite (lt_asym y x Py Hx E). reflexivity.
    + constructor.
      * constructor; assumption.
      * assert (Hxy : (x <=? y) = true).
        { rewrite leb_not_lt by assumption. rewrite E. reflexivity. }
        constructor; [exact Hxy|].
        rewrite Forall_forall in Hy, Pl |- *. intros z Hz.
        specialize (Hy z Hz). specialize (Pl z Hz).
        rewrite leb_not_lt in Hy |- * by assumption.
        apply negb_true_iff in Hy. apply negb_true_iff.
        apply (le_trans x y z); assumption.
Qed.

Lemma py_sorted_ascending (l : list float) :
  Forall PyFloat.positive l -> ascending (py_sorted l).
Proof.
  induction l as [|x l IH]; intros H; simpl.
  - constructor.
  - inversion H; subst. apply insert_ascending; auto using py_sorted_positive.
Qed.



End FloatOrder.

(** *** [min] and [max]: the loop [if item < best: best = item] *)

Section Extremum.
(** [below] is [<] for [min] and [>] for [max]. *)
Variable below : float -> float -> bool.
Hypothesis below_irrefl : forall x, PyFloat.positive x -> below x x = false.
Hypothesis below_asym : forall x y,
  PyFloat.positive x -> PyFloat.positive y -> below x y = true -> below y x = false.
Hypothesis below_eq : forall x y,
  PyFloat.positive x -> PyFloat.positive y ->
  below x y = false -> below y x = false -> x = y.
Hypothesis below_trans : forall x y z,
  PyFloat.positive x -> PyFloat.positive y -> PyFloat.positive z ->
  below y x = false -> below z y = false -> below z x = false.

Let pick (best item : float) : float := if below item best then item else best.

Lemma extremum_in (xs : list float) :
  forall x, In (fold_left pick xs x) (x :: xs).
Proof.
  induction xs as [|a xs IH]; intros x; simpl.
  - auto.
  - assert (Hp : pick x a = x \/ pick x a = a)
      by (unfold pick; destruct (below a x); auto).
    destruct (IH (pick x a)) as [H|H]; auto.
    rewrite <- H. destruct Hp as [-> | ->]; auto.
Qed.

Lemma extremum_bound (xs : list float) :
  forall x, PyFloat.positive x -> Forall PyFloat.positive xs ->
  forall y, In y (x :: xs) -> below y (fold_left pick xs x) = false.
Proof.
  induction xs as [|a xs IH]; intros x Hx Hxs y Hy; simpl.
  - destruct Hy as [<-|[]]. apply below_irrefl, Hx.
  - inversion Hxs as [|? ? Ha Hxs']; subst.
    assert (Hp : PyFloat.positive (pick x a)) by (unfold pick; destruct (below a x); auto).
    assert (Hm : PyFloat.positive (fold_left pick xs (pick x a))).
    { destruct (extremum_in xs (pick x a)) as [<-|H]; auto.
      rewrite Forall_forall in Hxs'. auto. }
    assert (Hpx : below x (pick x a) = false).
    { unfold pick. destruct (below a x) eqn:E; auto. }
    assert (Hpa : below a (pick x a) = false).
    { unfold pick. destruct (below a x) eqn:E; auto. }
    pose proof (IH (pick x a) Hp Hxs' (pick x a) (or_introl eq_refl)) as Hpm.
    destruct Hy as [<-|[<-|Hy]].
    + apply (below_trans _ (pick x a) _); auto.
    + apply (below_trans _ (pick x a) _); auto.
    + apply IH; simpl; auto.
Qed.


End Extremum.

Section MinMax.
Import Py.
Local Open Scope float_scope.




(** The index [len(xs)//2] is in range on a non-empty list. *)
Lemma median_in_range (l : list float) :
  l <> [] ->
  nth_error (py_sorted l) (List.length l / 2) = Some (Statistics.median l).
Proof.
  intros Hl. unfold Statistics.median.
  apply nth_error_nth'. rewrite py_sorted_length.
  destruct l as [|x l]; [contradiction|].
  apply Nat.div_lt; simpl; lia.
Qed.

End MinMax.

(* ================================================================= *)
(** * Dictionaries and the grouping loops *)

Section DictFacts.
Import Dict.
Context {K E : Type}.
Variable eqb : K -> K -> bool.
Hypothesis eqb_eq : forall a b, eqb a b = true <-> a = b.

Lemma eqb_refl (k : K) : eqb k k = true.
Proof. apply eqb_eq. reflexivity. Qed.

Lemma eqb_neq (a b : K) : a <> b -> eqb a b = false.
Proof.
  intros H. destruct (eqb a b) eqn:Eab; [|reflexivity].
  apply eqb_eq in Eab. contradiction.
Qed.

Lemma get_upsert_same {V} (k : K) (init : V) (f : V -> V) (d : dict K V) :
  get eqb k (upsert eqb k init f d) =
    Some (f (match get eqb k d with Some v => v | None => init end)).
Proof.
  induction d as [|[k' v] d IH]; simpl.
  - rewrite eqb_refl. reflexivity.
  - destruct (eqb k k') eqn:Ek; simpl; rewrite Ek; [reflexivity | exact IH].
Qed.

Lemma get_upsert_other {V} (k k' : K) (init : V) (f : V -> V) (d : dict K V) :
  k <> k' -> get eqb k' (upsert eqb k init f d) = get eqb k' d.
Proof.
  intros Hne. induction d as [|[k1 v] d IH]; simpl.
  - rewrite eqb_neq by congruence. reflexivity.
  - destruct (eqb k k1) eqn:Ek; simpl.
    + apply eqb_eq in Ek. subst k1. rewrite eqb_neq by congruence. reflexivity.
    + destruct (eqb k' k1); [reflexivity | exact IH].
Qed.

Lemma keys_upsert {V} (k : K) (init : V) (f : V -> V) (d : dict K V) :
  keys (upsert eqb k init f d) =
    match get eqb k d with
    | Some _ => keys d
    | None => keys d ++ [k]
    end.
Proof.
  unfold keys. induction d as [|[k' v] d IH]; simpl.
  - reflexivity.
  - destruct (eqb k k') eqn:Ek; simpl.
    + reflexivity.
    + rewrite IH. destruct (get eqb k d); reflexivity.
Qed.

Lemma get_none_iff {V} (k : K) (d : dict K V) :
  get eqb k d = None <-> ~ In k (keys d).
Proof.
  induction d as [|[k' v] d IH]; simpl.
  - tauto.
  - destruct (eqb k k') eqn:Ek.
    + apply eqb_eq in Ek. subst. split; [discriminate | intros H; exfalso; auto].
    + rewrite IH. split.
      * intros H [H1|H1]; [|contradiction].
        subst. rewrite eqb_refl in Ek. discriminate.
      * tauto.
Qed.

Lemma nodup_keys_upsert {V} (k : K) (init : V) (f : V -> V) (d : dict K V) :
  NoDup (keys d) -> NoDup (keys (upsert eqb k init f d)).
Proof.
  intros H. rewrite keys_upsert. destruct (get eqb k d) eqn:Eg; [exact H|].
  apply get_none_iff in Eg.
  apply NoDup_rev in H. rewrite <- (rev_involutive (keys d ++ [k])).
  apply NoDup_rev. rewrite rev_app_distr. simpl. constructor; [|exact H].
  rewrite <- in_rev. exact Eg.
Qed.

(** The values of a dictionary of lists hold this many elements. *)
Let held (d : dict K (list E)) : nat := list_sum (map (fun kv => List.length (snd kv)) d).

Lemma held_append_to (k : K) (e : E) (d : dict K (list E)) :
  held (append_to eqb k e d) = S (held d).
Proof.
  unfold held, append_to.
  induction d as [|[k' es] d IH]; simpl.
  - reflexivity.
  - destruct (eqb k k'); simpl.
    + rewrite length_app. simpl. lia.
    + rewrite IH. lia.
Qed.

(** What a lookup finds once [add] was appended under its key. *)
Let extended (o : option (list E)) (add : list E) : option (list E) :=
  match o, add with
  | Some es, _ => Some (es ++ add)
  | None, [] => None
  | None, _ => Some add
  end.

Lemma extended_app (o : option (list E)) (a b : list E) :
  extended (extended o a) b = extended o (a ++ b).
Proof.
  destruct o as [es|]; simpl.
  - rewrite app_assoc. reflexivity.
  - destruct a; simpl; [reflexivity|]. destruct b; reflexivity.
Qed.

(** The keys under which the loop files an entry, for a loop that files
    it once under each element of [keys_of e]. *)
Variable keys_of : E -> list K.

Let file (d : dict K (list E)) (e : E) : dict K (list E) :=
  fold_left (fun d k => append_to eqb k e d) (keys_of e) d.

Let copies (k : K) (e : E) : list E :=
  flat_map (fun k' => if eqb k k' then [e] else []) (keys_of e).

Lemma get_inner (k : K) (e : E) (ks : list K) :
  forall d,
    get eqb k (fold_left (fun d k' => append_to eqb k' e d) ks d) =
      extended (get eqb k d) (flat_map (fun k' => if eqb k k' then [e] else []) ks).
Proof.
  induction ks as [|k1 ks IH]; intros d; simpl.
  - destruct (get eqb k d); simpl; rewrite ?app_nil_r; reflexivity.
  - rewrite IH. unfold append_to.
    destruct (eqb k k1) eqn:Ek.
    + apply eqb_eq in Ek. subst k1. rewrite get_upsert_same.
      destruct (get eqb k d); simpl; rewrite <- ?app_assoc; reflexivity.
    + rewrite get_upsert_other; [reflexivity|].
      intros ->. rewrite eqb_refl in Ek. discriminate.
Qed.

Lemma get_filed (k : K) (l : list E) :
  forall d,
    get eqb k (fold_left file l d) = extended (get eqb k d) (flat_map (copies k) l).
Proof.
  induction l as [|e l IH]; intros d; simpl.
  - destruct (get eqb k d); simpl; rewrite ?app_nil_r; reflexivity.
  - rewrite IH. unfold file. rewrite get_inner. apply extended_app.
Qed.

Lemma held_filed (l : list E) :
  forall d,
    held (fold_left file l d) = held d + list_sum (map (fun e => List.length (keys_of e)) l).
Proof.
  induction l as [|e l IH]; intros d; simpl.
  - lia.
  - rewrite IH. unfold file.
    assert (H : forall ks d0,
              held (fold_left (fun d k => append_to eqb k e d) ks d0)
              = held d0 + List.length ks).
    { induction ks as [|k ks IHks]; intros d0; simpl; [lia|].
      rewrite IHks, held_append_to. lia. }
    rewrite H. lia.
Qed.

Lemma nodup_filed (l : list E) :
  forall d, NoDup (keys d) -> NoDup (keys (fold_left file l d)).
Proof.
  induction l as [|e l IH]; intros d Hd; simpl.
  - exact Hd.
  - apply IH. unfold file.
    generalize dependent d. induction (keys_of e) as [|k ks IHks]; intros d Hd; simpl.
    + exact Hd.
    + apply IHks. apply nodup_keys_upsert, Hd.
Qed.

End DictFacts.

(* ================================================================= *)
(** * Properties of the statistics engine *)

Section ListFacts.
Context {A : Type}.



(** The singleton loop of [group_by] files each entry once. *)
Lemma flat_map_singleton_filter {K} (eqb : K -> K -> bool) (k : K)
    (key : A -> K) (l : list A) :
  flat_map (fun e => flat_map (fun k' => if eqb k k' then [e] else []) [key e]) l
  = filter (fun e => eqb k (key e)) l.
Proof.
  induction l as [|e l IH]; simpl in *; [reflexivity|].
  rewrite IH. destruct (eqb k (key e)); reflexivity.
Qed.

End ListFacts.

Section IntExtremum.
Open Scope Z_scope.

Lemma fold_min_spec (xs : list Z) :
  forall x, In (fold_left Z.min xs x) (x :: xs)
            /\ forall y, In y (x :: xs) -> fold_left Z.min xs x <= y.
Proof.
  induction xs as [|a xs IH]; intros x; simpl.
  - split; [auto|]. intros y [<-|[]]. lia.
  - destruct (IH (Z.min x a)) as [Hin Hle]. split.
    + destruct Hin as [H|H]; [|auto].
      rewrite <- H. destruct (Z.min_spec x a) as [[_ ->]|[_ ->]]; auto.
    + intros y [<-|[<-|Hy]].
      * specialize (Hle (Z.min x a) (or_introl eq_refl)). lia.
      * specialize (Hle (Z.min x a) (or_introl eq_refl)). lia.
      * apply Hle. simpl. auto.
Qed.

Lemma fold_max_spec (xs : list Z) :
  forall x, In (fold_left Z.max xs x) (x :: xs)
            /\ forall y, In y (x :: xs) -> y <= fold_left Z.max xs x.
Proof.
  induction xs as [|a xs IH]; intros x; simpl.
  - split; [auto|]. intros y [<-|[]]. lia.
  - destruct (IH (Z.max x a)) as [Hin Hle]. split.
    + destruct Hin as [H|H]; [|auto].
      rewrite <- H. destruct (Z.max_spec x a) as [[_ ->]|[_ ->]]; auto.
    + intros y [<-|[<-|Hy]].
      * specialize (Hle (Z.max x a) (or_introl eq_refl)). lia.
      * specialize (Hle (Z.max x a) (or_introl eq_refl)). lia.
      * apply Hle. simpl. auto.
Qed.



End IntExtremum.

Section GroupingFacts.
Import Py Refiner Statistics.

Lemma label_eqb_eq (a b : label) : label_eqb a b = true <-> a = b.
Proof.
  destruct a as [x|]; destruct b as [y|]; simpl.
  - rewrite String.eqb_eq. split; congruence.
  - split; discriminate.
  - split; discriminate.
  - tauto.
Qed.

(** Under a key, [group_by] holds the entries of that key in input order. *)
Lemma get_group_by (key : refined_entry -> label) (k : label)
    (l : list refined_entry) :
  Dict.get label_eqb k (Dict.group_by label_eqb key l) =
    match filter (fun e => label_eqb k (key e)) l with
    | [] => None
    | _ => Some (filter (fun e => label_eqb k (key e)) l)
    end.
Proof.
  unfold Dict.group_by.
  change (fold_left (fun d e => Dict.append_to label_eqb (key e) e d) l [])
    with (fold_left
            (fun d e => fold_left (fun d1 k0 => Dict.append_to label_eqb k0 e d1)
                                  ((fun e => [key e]) e) d) l []).
  rewrite (get_filed label_eqb label_eqb_eq (fun e => [key e])).
  cbn beta. rewrite flat_map_singleton_filter. simpl.
  destruct (filter (fun e => label_eqb k (key e)) l); reflexivity.
Qed.

Lemma nodup_group_by (key : refined_entry -> label) (l : list refined_entry) :
  NoDup (Dict.keys (Dict.group_by label_eqb key l)).
Proof.
  unfold Dict.group_by.
  change (fold_left (fun d e => Dict.append_to label_eqb (key e) e d) l [])
    with (fold_left
            (fun d e => fold_left (fun d1 k0 => Dict.append_to label_eqb k0 e d1)
                                  ((fun e => [key e]) e) d) l []).
  apply (nodup_filed label_eqb label_eqb_eq). constructor.
Qed.

Lemma keys_per_group {K V} (f : list refined_entry -> option V)
    (groups : Dict.dict K (list refined_entry)) (k : K) :
  In k (Dict.keys (per_group f groups)) -> In k (Dict.keys groups).
Proof.
  unfold per_group, Dict.keys.
  induction groups as [|[k1 g] groups IH]; simpl; [tauto|].
  rewrite map_app, in_app_iff. intros [H|H]; [|auto].
  destruct (f g); simpl in H; [|contradiction].
  destruct H as [H|[]]. auto.
Qed.

(** A lookup in a dictionary filled by one of the [for k, entries in
    groups.items()] loops. *)
Lemma get_per_group {V} (f : list refined_entry -> option V)
    (groups : Dict.dict label (list refined_entry)) (k : label) :
  NoDup (Dict.keys groups) ->
  Dict.get label_eqb k (per_group f groups) =
    match Dict.get label_eqb k groups with
    | Some g => f g
    | None => None
    end.
Proof.
  induction groups as [|[k1 g] groups IH]; intros Hnd; simpl; [reflexivity|].
  inversion Hnd as [|? ? Hnotin Hnd']; subst.
  destruct (label_eqb k k1) eqn:Ek.
  - apply label_eqb_eq in Ek. subst k1.
    destruct (f g) as [v|]; simpl.
    + rewrite (proj2 (label_eqb_eq k k) eq_refl). reflexivity.
    + apply (get_none_iff label_eqb label_eqb_eq).
      intros H. apply Hnotin. apply (keys_per_group f groups k H).
  - destruct (f g) as [v|]; simpl; [rewrite Ek|]; apply IH, Hnd'.
Qed.

(** The dictionaries [by_property_type] and [by_mutation_nature] hold,
    under a key, the statistics of the entries of that key. *)
Lemma get_by_key {V} (f : list refined_entry -> option V)
    (key : refined_entry -> label) (k : label) (l : list refined_entry) :
  f [] = None ->
  Dict.get label_eqb k (per_group f (Dict.group_by label_eqb key l))
  = f (filter (fun e => label_eqb k (key e)) l).
Proof.
  intros Hf. rewrite get_per_group by apply nodup_group_by.
  rewrite get_group_by.
  destruct (filter (fun e => label_eqb k (key e)) l); [symmetry; exact Hf | reflexivity].
Qed.

(** The geographic loop fills its two dictionaries independently. *)
Lemma geo_fold_split (l : list refined_entry) :
  forall d c,
    fold_left geo_step l (d, c) =
      (fold_left (fun d e => Dict.append_to label_eqb (department_code e) e d) l d,
       fold_left (fun c e =>
                    fold_left (fun c1 code => Dict.append_to String.eqb code e c1)
                              (insee_codes e) c) l c).
Proof.
  induction l as [|e l IH]; intros d c; simpl; [reflexivity|].
  apply IH.
Qed.

Lemma get_counts {K} (eqb : K -> K -> bool) (k : K)
    (d : Dict.dict K (list refined_entry)) :
  Dict.get eqb k (counts d) = option_map (@List.length _) (Dict.get eqb k d).
Proof.
  unfold counts. induction d as [|[k1 g] d IH]; simpl; [reflexivity|].
  destruct (eqb k k1); [reflexivity | exact IH].
Qed.

Lemma keys_counts {K} (d : Dict.dict K (list refined_entry)) :
  Dict.keys (counts d) = Dict.keys d.
Proof.
  unfold counts, Dict.keys. rewrite map_map. reflexivity.
Qed.

Lemma values_counts {K} (d : Dict.dict K (list refined_entry)) :
  Dict.values (counts d) = map (fun kv => List.length (snd kv)) d.
Proof.
  unfold counts, Dict.values. rewrite map_map. reflexivity.
Qed.

End GroupingFacts.

Section ReportFacts.
Import Py Refiner Statistics.
Context {I : Interpreter}.

(** A non-empty input gives the full dictionary. *)
Lemma report_of_nonempty (l : list refined_entry) (s : stats) :
  calculate_comprehensive_statistics l = Report s ->
  l <> []
  /\ total_transactions s = List.length l
  /\ valid_price_transactions s = List.length (filter valid_price l)
  /\ valid_land_price_transactions s = List.length (filter valid_land_price l)
  /\ year_range s = {| year_min := int_min (map mutation_year l);
                       year_max := int_max (map mutation_year l) |}
  /\ financial_stats s = financial_of (filter valid_price l)
  /\ by_property_type s
     = per_group type_stats_of (Dict.group_by label_eqb property_type_label l)
  /\ by_mutation_nature s
     = per_group group_stats_of (Dict.group_by label_eqb mutation_nature l)
  /\ vefa_vs_classic s
     = {| vefa_group := group_stats_of (filter is_vefa l);
          classic_group := group_stats_of (filter (fun e => negb (is_vefa e)) l) |}
  /\ geographic_stats s = geographic_of l.
Proof.
  destruct l as [|e l]; simpl; [discriminate|].
  intros H. inversion H; subst; clear H. simpl.
  repeat split. discriminate.
Qed.

(** C2 (amended).  On the empty input the function returns, without
    raising, the empty dictionary: it has no key at all, so neither
    [total_transactions] nor any section; being empty is what marks the
    absence of data, and no report carries [total_transactions = 0]. *)
Theorem empty_input_gives_empty_dict :
  calculate_comprehensive_statistics [] = EmptyDict
  /\ report_keys (calculate_comprehensive_statistics []) = []
  /\ get_total_transactions (calculate_comprehensive_statistics []) = None
  /\ forall l, get_total_transactions (calculate_comprehensive_statistics l) <> Some 0.
Proof.
  repeat split. intros [|e l]; simpl; discriminate.
Qed.






End ReportFacts.

(** C2 as stated fails: the dictionary returned on the empty input has no
    [total_transactions] entry, so none that equals 0. *)
Lemma empty_input_has_no_total_transactions :
  Statistics.get_total_transactions
    (Statistics.calculate_comprehensive_statistics (I := CPython.left_to_right) [])
  <> Some 0.
Proof.
  simpl. discriminate.
Qed.



Section MedianFacts.
Import Py Refiner Statistics.
Context {I : Interpreter}.

(** The prices the statistics read are those that passed [> 0]. *)
Lemma valid_prices_positive (l : list refined_entry) :
  Forall PyFloat.positive (map price (filter valid_price l)).
Proof.
  induction l as [|e l IH]; simpl; [constructor|].
  destruct (valid_price e) eqn:Ev; [|exact IH].
  simpl. constructor; [|exact IH].
  unfold valid_price in Ev. unfold price.
  destruct (price_per_m2 e); [exact Ev | discriminate].
Qed.

(** On normalized entries a valid price comes with a positive value and a
    positive built area. *)
Lemma valid_amounts_positive (l : list refined_entry) :
  Forall normalized l ->
  Forall PyFloat.positive (map land_value (filter valid_price l))
  /\ Forall PyFloat.positive (map built_area (filter valid_price l)).
Proof.
  intros Hn. induction Hn as [|e l [He _] Hn [IH1 IH2]]; simpl.
  - split; constructor.
  - destruct (valid_price e) eqn:Ev; [|split; assumption].
    unfold valid_price in Ev. rewrite He in Ev. unfold price_per_area in Ev.
    destruct (PyFloat.gtb (built_area e) 0) eqn:Eb;
      destruct (PyFloat.gtb (land_value e) 0) eqn:El; simpl in Ev; try discriminate.
    simpl. split; constructor; assumption.
Qed.

Lemma median_spec (xs : list float) :
  xs <> [] ->
  Permutation (py_sorted xs) xs
  /\ nth_error (py_sorted xs) (List.length xs / 2) = Some (median xs)
  /\ (Forall PyFloat.positive xs -> ascending (py_sorted xs)).
Proof.
  intros Hne. split; [apply py_sorted_perm|].
  split; [apply median_in_range, Hne | apply py_sorted_ascending].
Qed.

Lemma financial_of_some (valid : list refined_entry) (f : financial) :
  financial_of valid = Some f ->
  valid <> []
  /\ price_median (fin_price_per_m2 f) = median (map price valid)
  /\ amount_median (fin_land_value f) = median (map land_value valid)
  /\ amount_median (fin_built_area f) = median (map built_area valid).
Proof.
  destruct valid as [|e valid]; simpl; [discriminate|].
  intros H. inversion H; subst; clear H. simpl.
  repeat split. discriminate.
Qed.

Lemma type_stats_of_some (entries : list refined_entry) (t : type_stats) :
  type_stats_of entries = Some t ->
  filter valid_price entries <> []
  /\ type_price_median t = median (map price (filter valid_price entries)).
Proof.
  unfold type_stats_of.
  destruct (filter valid_price entries) as [|e valid]; [discriminate|].
  intros H. inversion H; subst; clear H. simpl.
  split; [discriminate | reflexivity].
Qed.

Lemma map_nonempty {A B} (g : A -> B) (l : list A) : l <> [] -> map g l <> [].
Proof.
  destruct l; [contradiction | discriminate].
Qed.

(** C3 (amended).  Every median of the report is the element at index
    [len // 2] of the ascending sort of its values: the global median of
    [price_per_m2], of [land_value] and of [built_area] over the entries
    with a valid price, and the price median of every property type over
    the valid entries of that type.  The index is in range, the sorted list
    is a rearrangement of the values, and it ascends (for the prices always,
    for values and areas on normalized entries).  On an even number [2 * m]
    of values the index is [m], the upper of the two middle positions
    [m - 1] and [m]; no average is taken. *)
Theorem medians_are_the_element_at_half_length :
  forall (l : list refined_entry) (s : stats) (f : financial),
    calculate_comprehensive_statistics l = Report s ->
    financial_stats s = Some f ->
    let valid := filter valid_price l in
    let sorted_at (xs : list float) (x : float) :=
      xs <> []
      /\ Permutation (py_sorted xs) xs
      /\ nth_error (py_sorted xs) (List.length xs / 2) = Some x
      /\ (forall m, List.length xs = 2 * m -> nth_error (py_sorted xs) m = Some x) in
    sorted_at (map price valid) (price_median (fin_price_per_m2 f))
    /\ ascending (py_sorted (map price valid))
    /\ sorted_at (map land_value valid) (amount_median (fin_land_value f))
    /\ sorted_at (map built_area valid) (amount_median (fin_built_area f))
    /\ (Forall normalized l ->
        ascending (py_sorted (map land_value valid))
        /\ ascending (py_sorted (map built_area valid)))
    /\ (forall (k : label) (t : type_stats),
          Dict.get label_eqb k (by_property_type s) = Some t ->
          let of_type :=
            filter valid_price (filter (fun e => label_eqb k (property_type_label e)) l) in
          sorted_at (map price of_type) (type_price_median t)
          /\ ascending (py_sorted (map price of_type))).
Proof.
  intros l s f Hs Hf valid sorted_at.
  destruct (report_of_nonempty l s Hs) as (_ & _ & _ & _ & _ & Hfin & Htype & _).
  rewrite Hfin in Hf. destruct (financial_of_some _ _ Hf) as (Hne & Hp & Hl & Hb).
  assert (Hsorted : forall xs, xs <> [] -> sorted_at xs (median xs)).
  { intros xs Hxs. destruct (median_spec xs Hxs) as (H1 & H2 & _).
    repeat split; auto.
    intros m Hm. rewrite <- H2. f_equal. rewrite Hm.
    rewrite Nat.mul_comm. symmetry. apply Nat.div_mul. lia. }
  rewrite Hp, Hl, Hb.
  split; [apply Hsorted, map_nonempty, Hne|].
  split; [apply py_sorted_ascending, valid_prices_positive|].
  split; [apply Hsorted, map_nonempty, Hne|].
  split; [apply Hsorted, map_nonempty, Hne|].
  split.
  - intros Hn. destruct (valid_amounts_positive l Hn) as [H1 H2].
    split; apply py_sorted_ascending; assumption.
  - intros k t Hk of_type. rewrite Htype in Hk.
    rewrite (get_by_key type_stats_of property_type_label k l eq_refl) in Hk.
    destruct (type_stats_of_some _ _ Hk) as [Hne' Hm]. rewrite Hm.
    split; [apply Hsorted, map_nonempty, Hne'|].
    apply py_sorted_ascending, valid_prices_positive.
Qed.

End MedianFacts.

(** C3 as stated fails on its own example: of the prices 100, 200, 300 and
    400 the report gives 300, and the lower of the two middle elements of
    the sorted prices is 200. *)
Lemma median_is_not_the_lower_middle :
  exists (s : Statistics.stats) (f : Statistics.financial),
    Statistics.calculate_comprehensive_statistics (I := CPython.left_to_right)
      [Statistics.transaction 2022 400 1 (Some "Maison"%string) [];
       Statistics.transaction 2022 100 1 (Some "Maison"%string) [];
       Statistics.transaction 2022 300 1 (Some "Maison"%string) [];
       Statistics.transaction 2022 200 1 (Some "Maison"%string) []]
    = Statistics.Report s
    /\ Statistics.financial_stats s = Some f
    /\ Py.py_sorted [400; 100; 300; 200]%float = [100; 200; 300; 400]%float
    /\ Statistics.price_median (Statistics.fin_price_per_m2 f) = 300%float
    /\ nth_error (Py.py_sorted [400; 100; 300; 200]%float) (4 / 2 - 1) = Some 200%float
    /\ Some (Statistics.price_median (Statistics.fin_price_per_m2 f))
       <> nth_error (Py.py_sorted [400; 100; 300; 200]%float) (4 / 2 - 1).
Proof.
  eexists. eexists. split; [vm_compute; reflexivity|].
  split; [reflexivity|].
  split; [vm_compute; reflexivity|].
  split; [vm_compute; reflexivity|].
  split; [vm_compute; reflexivity|].
  intros H.
  apply (f_equal (fun o => match o with Some x => Prim2SF x | None => S754_nan end)) in H.
  vm_compute in H. discriminate H.
Qed.

(** C3 (amended) on the example of the specification. *)
Lemma medians_are_the_element_at_half_length_witness :
  exists (s : Statistics.stats) (f : Statistics.financial),
    Statistics.calculate_comprehensive_statistics (I := CPython.left_to_right)
      [Statistics.transaction 2022 400 1 (Some "Maison"%string) [];
       Statistics.transaction 2022 100 1 (Some "Maison"%string) [];
       Statistics.transaction 2022 300 1 (Some "Maison"%string) [];
       Statistics.transaction 2022 200 1 (Some "Maison"%string) []]
    = Statistics.Report s
    /\ Statistics.financial_stats s = Some f
    /\ nth_error (Py.py_sorted [400; 100; 300; 200]%float) 2
       = Some (Statistics.price_median (Statistics.fin_price_per_m2 f))
    /\ Statistics.price_median (Statistics.fin_price_per_m2 f) = 300%float.
Proof.
  eexists. eexists. split; [vm_compute; reflexivity|].
  split; [reflexivity|].
  split; [|vm_compute; reflexivity].
  pose (l := [Statistics.transaction 2022 400 1 (Some "Maison"%string) [];
              Statistics.transaction 2022 100 1 (Some "Maison"%string) [];
              Statistics.transaction 2022 300 1 (Some "Maison"%string) [];
              Statistics.transaction 2022 200 1 (Some "Maison"%string) []]).
  refine (proj1 (proj2 (proj2 (proj1
            (medians_are_the_element_at_half_length (I := CPython.left_to_right)
               l _ _ eq_refl eq_refl))))).
Defined.

Section OrderFacts.
Import Py Refiner Statistics.
Context {I : Interpreter}.





Lemma in_keys_iff {K V} (eqb : K -> K -> bool)
    (eqb_eq : forall a b, eqb a b = true <-> a = b) (k : K) (d : Dict.dict K V) :
  In k (Dict.keys d) <-> Dict.get eqb k d <> None.
Proof.
  unfold Dict.keys. induction d as [|[k1 v] d IH]; simpl.
  - split; [tauto | congruence].
  - destruct (eqb k k1) eqn:E.
    + apply eqb_eq in E. subst. split; [discriminate | auto].
    + rewrite <- IH. split; [|auto].
      intros [H|H]; [|exact H].
      subst. rewrite (proj2 (eqb_eq k k) eq_refl) in E. discriminate.
Qed.


End OrderFacts.

Section OrderIndependence.
Import Py Refiner Statistics.
Context {I : Interpreter}.

(** The dictionary of the communes before counting. *)
Let by_commune (l : list refined_entry) : Dict.dict string (list refined_entry) :=
  fold_left (fun c e =>
               fold_left (fun c1 code => Dict.append_to String.eqb code e c1)
                         (insee_codes e) c) l [].

Lemma geographic_of_eq (l : list refined_entry) :
  geographic_of l =
    {| departments := counts (Dict.group_by label_eqb department_code l);
       communes := counts (by_commune l);
       nb_unique_departments := List.length (Dict.group_by label_eqb department_code l);
       nb_unique_communes := List.length (by_commune l) |}.
Proof.
  unfold geographic_of. rewrite geo_fold_split. reflexivity.
Qed.






End OrderIndependence.



(* ================================================================= *)
(** * Further properties of the two DVF clients *)

Section LookupFacts.
Import Py Lookup.

Lemma attempts_app (url : string) (pre rest : list response) :
  forall (retries retries' : Z) (trace : list Fetcher.event),
    attempts url pre retries = (Pending retries', trace) ->
    (0 < retries')%Z
    /\ attempts url (pre ++ rest) retries =
         (fst (attempts url rest retries'), trace ++ snd (attempts url rest retries')).
Proof.
  induction pre as [|r pre IH]; intros retries retries' trace H.
  - simpl in H. destruct (retries >? 0)%Z eqn:E; [|discriminate].
    inversion H; subst. split; [apply Z.gtb_lt, E|].
    simpl. destruct (attempts url rest retries'); reflexivity.
  - simpl in H |- *. destruct (retries >? 0)%Z eqn:E; [|discriminate].
    assert (Hagain : forall next,
      match next with
      | inl (retries0, slept) =>
          let '(o, t) := attempts url pre retries0 in
          (o, Fetcher.Get url [] :: slept ++ t)
      | inr e => (Failed e, [Fetcher.Get url []])
      end = (Pending retries', trace) ->
      (0 < retries')%Z /\
      match next with
      | inl (retries0, slept) =>
          let '(o, t) := attempts url (pre ++ rest) retries0 in
          (o, Fetcher.Get url [] :: slept ++ t)
      | inr e => (Failed e, [Fetcher.Get url []])
      end = (fst (attempts url rest retries'),
             trace ++ snd (attempts url rest retries'))).
    { intros [[retries0 slept]|e] Hn; [|discriminate].
      destruct (attempts url pre retries0) as [o t] eqn:Ea.
      inversion Hn; subst.
      destruct (IH _ _ _ Ea) as [Hpos Hrun]. split; [exact Hpos|].
      rewrite Hrun. simpl. rewrite <- app_assoc. reflexivity. }
    destruct r as [m|c|].
    + discriminate.
    + destruct (c =? 404)%Z; [discriminate|]. apply Hagain, H.
    + apply Hagain, H.
Qed.

(** X1.  Whatever the server answers, the lookup is over after three
    requests at most: given three answers it has returned or raised, it has
    sent at most three requests, and it has slept nothing, 2 seconds, or 2
    and then 4 seconds. *)
Theorem lookup_ends_within_three_requests :
  forall (mutation_id : string) (script : list response),
    3 <= List.length script ->
    (forall retries,
       fst (get_location_info_by_mutation_id mutation_id script) <> Pending retries)
    /\ Fetcher.requests (snd (get_location_info_by_mutation_id mutation_id script)) <= 3
    /\ In (Fetcher.sleeps (snd (get_location_info_by_mutation_id mutation_id script)))
          [[]; [2]; [2; 4]]%Z.
Proof.
  intros mutation_id script Hlen.
  unfold get_location_info_by_mutation_id.
  destruct (String.eqb mutation_id EmptyString).
  { simpl. repeat split; auto. discriminate. }
  destruct script as [|r1 [|r2 [|r3 rest]]]; simpl in Hlen; try lia.
  generalize (DVF_API_BASE_URL ++ mutation_id ++ "/")%string. intros url.
  destruct r1 as [m1|c1|]; [| destruct (c1 =? 404)%Z eqn:E1 |];
    cbn [attempts MAX_RETRIES Z.gtb Z.compare retry_or_raise Z.sub Z.add
         Z.pos_sub Pos.pred_double Z.opp Z.succ_double Z.pred_double Z.double];
    rewrite ?E1;
    try (simpl; repeat split; auto; discriminate).
  all: destruct r2 as [m2|c2|]; [| destruct (c2 =? 404)%Z eqn:E2 |];
    cbn [attempts MAX_RETRIES Z.gtb Z.compare retry_or_raise Z.sub Z.add
         Z.pos_sub Pos.pred_double Z.opp Z.succ_double Z.pred_double Z.double];
    rewrite ?E2;
    try (simpl; repeat split; auto; discriminate).
  all: destruct r3 as [m3|c3|]; [| destruct (c3 =? 404)%Z eqn:E3 |];
    cbn [attempts MAX_RETRIES Z.gtb Z.compare retry_or_raise Z.sub Z.add
         Z.pos_sub Pos.pred_double Z.opp Z.succ_double Z.pred_double Z.double];
    rewrite ?E3;
    try (simpl; repeat split; auto; discriminate).
Qed.

(** X2.  At whatever attempt it comes, the status 404 ends the lookup at
    once with [None]: one more request is on the trace, no sleep and no
    further request follow, and no exception is raised. *)
Theorem lookup_404_returns_none_at_once :
  forall (url : string) (pre rest : list response) (retries retries' : Z)
         (trace : list Fetcher.event),
    attempts url pre retries = (Pending retries', trace) ->
    attempts url (pre ++ HTTPError 404 :: rest) retries
      = (Returned None, trace ++ [Fetcher.Get url []])
    /\ Fetcher.sleeps (trace ++ [Fetcher.Get url []]) = Fetcher.sleeps trace.
Proof.
  intros url pre rest retries retries' trace H.
  destruct (attempts_app url pre (HTTPError 404 :: rest) _ _ _ H) as [Hpos Hrun].
  split.
  - rewrite Hrun. simpl.
    apply Z.gtb_lt in Hpos. rewrite Hpos. reflexivity.
  - unfold Fetcher.sleeps. rewrite flat_map_app. simpl. apply app_nil_r.
Qed.

(** X3.  Every failure other than a 404, the status 403 included, is
    retried: after two of them a found mutation is returned with its
    fields, after sleeps of 2 and 4 seconds on three requests to the same
    address; a third failure raises [APIError] after the same two sleeps. *)
Theorem lookup_retries_other_failures :
  forall (mutation_id : string) (r1 r2 r3 : response)
         (mutation : list (string * pyval)) (rest : list response),
    mutation_id <> EmptyString ->
    retried r1 = true ->
    retried r2 = true ->
    retried r3 = true ->
    let request := Fetcher.Get (DVF_API_BASE_URL ++ mutation_id ++ "/") [] in
    let backoff := [request; Fetcher.Sleep 2; request; Fetcher.Sleep 4; request] in
    get_location_info_by_mutation_id mutation_id (r1 :: r2 :: Found mutation :: rest)
      = (Returned (Some (info_of mutation)), backoff)
    /\ exists why,
         get_location_info_by_mutation_id mutation_id (r1 :: r2 :: r3 :: rest)
         = (Failed (APIError why), backoff).
Proof.
  intros mutation_id r1 r2 r3 mutation rest Hid H1 H2 H3 request backoff.
  unfold get_location_info_by_mutation_id.
  destruct (String.eqb mutation_id EmptyString) eqn:E.
  { apply String.eqb_eq in E. contradiction. }
  subst backoff request.
  generalize (DVF_API_BASE_URL ++ mutation_id ++ "/")%string. intros url.
  destruct r1 as [m1|c1|]; simpl in H1; try discriminate;
    destruct r2 as [m2|c2|]; simpl in H2; try discriminate;
    destruct r3 as [m3|c3|]; simpl in H3; try discriminate;
    repeat match goal with
           | H : negb (?c =? 404)%Z = true |- _ => apply negb_true_iff in H
           end;
    simpl; rewrite ?H1, ?H2, ?H3; simpl; split; eauto.
Qed.

End LookupFacts.

(** X1 at work: three timeouts. *)
Lemma lookup_ends_within_three_requests_witness :
  fst (Lookup.get_location_info_by_mutation_id "2022-1"
         [Lookup.RequestException; Lookup.RequestException; Lookup.RequestException])
  = Lookup.Failed (Py.APIError Py.RequestAfterRetries)
  /\ Fetcher.requests
       (snd (Lookup.get_location_info_by_mutation_id "2022-1"
               [Lookup.RequestException; Lookup.RequestException;
                Lookup.RequestException])) <= 3.
Proof.
  split; [reflexivity|].
  exact (proj1 (proj2 (lookup_ends_within_three_requests "2022-1"
           [Lookup.RequestException; Lookup.RequestException; Lookup.RequestException]
           (le_n 3)))).
Defined.

(** X2 at work: a timeout, then the 404. *)
Lemma lookup_404_returns_none_at_once_witness :
  Lookup.get_location_info_by_mutation_id "2022-1"
    ([Lookup.RequestException] ++ Lookup.HTTPError 404 :: [Lookup.Found []])
  = (Lookup.Returned None,
     [Fetcher.Get (DVF_API_BASE_URL ++ "2022-1" ++ "/") []; Fetcher.Sleep 2]
       ++ [Fetcher.Get (DVF_API_BASE_URL ++ "2022-1" ++ "/") []]).
Proof.
  exact (proj1 (lookup_404_returns_none_at_once
                  (DVF_API_BASE_URL ++ "2022-1" ++ "/")
                  [Lookup.RequestException] [Lookup.Found []] MAX_RETRIES 2
                  _ eq_refl)).
Defined.

(** X3 at work: a 403, a timeout, then the mutation. *)
Lemma lookup_retries_other_failures_witness :
  fst (Lookup.get_location_info_by_mutation_id "2022-1"
         [Lookup.HTTPError 403; Lookup.RequestException;
          Lookup.Found [("idmutation"%string, Py.PStr "2022-1")]])
  = Lookup.Returned (Some (Lookup.info_of [("idmutation"%string, Py.PStr "2022-1")])).
Proof.
  exact (f_equal fst (proj1 (lookup_retries_other_failures "2022-1"
           (Lookup.HTTPError 403) Lookup.RequestException Lookup.RequestException
           [("idmutation"%string, Py.PStr "2022-1")] []
           ltac:(discriminate) eq_refl eq_refl eq_refl))).
Defined.

Section PaginationFacts.
Import Py Fetcher Script.
Context {R : Type}.

Lemma run_serve (pages : list (list R * string)) (last : list R)
    (rest : list (response R)) :
  Forall (fun p => snd p <> EmptyString) pages ->
  forall st : state R,
    run (serve pages last ++ rest) st
    = (Returned (results st ++ concat (map fst pages) ++ last),
       Get (api_url st) (params st) :: map (fun p => Get (snd p) []) pages).
Proof.
  unfold serve. intros Hurls. induction Hurls as [|[rs url] pages Hurl Hurls IH];
    intros st; destruct (loop_head_request st) as (Hu & Hp & Hr).
  - simpl. rewrite Hu, Hp, Hr. reflexivity.
  - simpl in Hurl. cbn [map app fst snd run attempt].
    destruct (String.eqb url EmptyString) eqn:E.
    { apply String.eqb_eq in E. contradiction. }
    change (map (fun p => Page (fst p) (Some (snd p))) pages ++ [Page last None])
      with (serve pages last) in IH |- *.
    unfold serve in *. rewrite <- app_assoc in IH |- *. rewrite IH.
    cbn [api_url params results concat map fst snd app].
    rewrite Hu, Hp, Hr, <- !app_assoc. reflexivity.
Qed.

(** X4.  When every request is answered by a page, the fetch returns the
    records of all pages in the order of the pages, up to the first page
    without [next] reference, and ignores what the server would answer
    after it.  The first request goes to the base address with the filter
    parameters; every other one goes to the [next] reference of the page
    before, as it is and without parameters. *)
Theorem pages_are_concatenated_in_order :
  forall (bbox min_year : string) (pages : list (list R * string))
         (last : list R) (rest : list (response R)),
    bbox <> EmptyString ->
    min_year <> EmptyString ->
    Forall (fun p => snd p <> EmptyString) pages ->
    fetch_all_pages_dvf_api bbox min_year (serve pages last ++ rest)
    = (Returned (concat (map fst pages) ++ last),
       Get DVF_API_BASE_URL (initial_params bbox min_year)
         :: map (fun p => Get (snd p) []) pages).
Proof.
  intros bbox min_year pages last rest Hb Hy Hurls.
  unfold fetch_all_pages_dvf_api.
  destruct (String.eqb bbox EmptyString) eqn:Eb.
  { apply String.eqb_eq in Eb. contradiction. }
  destruct (String.eqb min_year EmptyString) eqn:Ey.
  { apply String.eqb_eq in Ey. contradiction. }
  simpl orb. cbv iota. rewrite (run_serve pages last rest Hurls). reflexivity.
Qed.

Lemma run_survives (script : list (response R)) :
  forall (n : nat) (st : state R),
    survivable n script = true ->
    n <= 2 ->
    retries st = (max_retries - Z.of_nat n)%Z ->
    forall e, fst (run script st) <> Failed e.
Proof.
  induction script as [|r script IH]; intros n st Hs Hn Hr e.
  - simpl. discriminate.
  - assert (Hhead : loop_head st = st).
    { unfold loop_head. rewrite Hr. unfold max_retries.
      destruct (3 - Z.of_nat n >? 0)%Z eqn:E; [reflexivity|].
      rewrite Z.gtb_ltb in E; apply Z.ltb_ge in E. lia. }
    cbn [run]. rewrite Hhead.
    destruct r as [rs next|code|]; cbn [survivable] in Hs.
    + cbn [attempt]. destruct next as [url|].
      * destruct (String.eqb url EmptyString); [simpl; discriminate|].
        match goal with |- context [run script ?s] =>
          specialize (IH 0 s Hs ltac:(lia) eq_refl e);
          destruct (run script s) as [o t] end.
        exact IH.
      * simpl. discriminate.
    + apply andb_true_iff in Hs. destruct Hs as [Hs Hs2].
      apply andb_true_iff in Hs. destruct Hs as [H403 Hlt].
      apply negb_true_iff in H403. apply Nat.ltb_lt in Hlt.
      cbn [attempt]. rewrite H403. unfold retry_or_raise. rewrite Hr.
      destruct (max_retries - Z.of_nat n - 1 >? 0)%Z eqn:E.
      * match goal with |- context [run script ?s] =>
          specialize (IH (S n) s Hs2 ltac:(lia)
                         ltac:(cbn [retries]; lia) e);
          destruct (run script s) as [o t] end.
        exact IH.
      * rewrite Z.gtb_ltb in E; apply Z.ltb_ge in E. unfold max_retries in E. lia.
    + apply andb_true_iff in Hs. destruct Hs as [Hlt Hs2].
      apply Nat.ltb_lt in Hlt.
      cbn [attempt]. unfold retry_or_raise. rewrite Hr.
      destruct (max_retries - Z.of_nat n - 1 >? 0)%Z eqn:E.
      * match goal with |- context [run script ?s] =>
          specialize (IH (S n) s Hs2 ltac:(lia)
                         ltac:(cbn [retries]; lia) e);
          destruct (run script s) as [o t] end.
        exact IH.
      * rewrite Z.gtb_ltb in E; apply Z.ltb_ge in E. unfold max_retries in E. lia.
Qed.

(** X5.  The retry budget belongs to the page, not to the fetch: however
    many failures a fetch meets in all, it does not fail as long as no
    answer is a 403 and no page fails three times in a row. *)
Theorem fetch_survives_short_failure_runs :
  forall (bbox min_year : string) (script : list (response R)),
    bbox <> EmptyString ->
    min_year <> EmptyString ->
    survivable 0 script = true ->
    forall e, fst (fetch_all_pages_dvf_api bbox min_year script) <> Failed e.
Proof.
  intros bbox min_year script Hb Hy Hs e.
  unfold fetch_all_pages_dvf_api.
  destruct (String.eqb bbox EmptyString) eqn:Eb.
  { apply String.eqb_eq in Eb. contradiction. }
  destruct (String.eqb min_year EmptyString) eqn:Ey.
  { apply String.eqb_eq in Ey. contradiction. }
  simpl orb. cbv iota.
  apply (run_survives script 0); auto.
Qed.

Lemma run_sleeps (script : list (response R)) :
  forall st : state R,
    (retries st <= max_retries)%Z ->
    Forall (fun s => s = 2%Z \/ s = 4%Z) (sleeps (snd (run script st))).
Proof.
  induction script as [|r script IH]; intros st Hr.
  - constructor.
  - cbn [run].
    assert (Hh : (0 < retries (loop_head st) <= max_retries)%Z).
    { unfold loop_head. destruct (retries st >? 0)%Z eqn:E; cbn [retries].
      - apply Z.gtb_lt in E. lia.
      - unfold max_retries. lia. }
    remember (loop_head st) as st0 eqn:Est0. clear Est0 Hr st.
    assert (Hretry : forall why,
      Forall (fun s => s = 2%Z \/ s = 4%Z)
        (sleeps (snd (match retry_or_raise st0 why with
                      | Continue st' slept =>
                          let '(o, trace) := run script st' in
                          (o, Get (api_url st0) (params st0) :: slept ++ trace)
                      | Return rs => (Returned rs, [Get (api_url st0) (params st0)])
                      | Raised e => (Failed e, [Get (api_url st0) (params st0)])
                      end)))).
    { intros why. unfold retry_or_raise.
      destruct (retries st0 - 1 >? 0)%Z eqn:E; [|constructor].
      apply Z.gtb_lt in E.
      match goal with |- context [run script ?s] =>
        specialize (IH s ltac:(cbn [retries]; unfold max_retries in *; lia));
        destruct (run script s) as [o t] end.
      cbn [snd sleeps flat_map app] in IH |- *.
      constructor; [|exact IH].
      unfold MAX_RETRIES, max_retries in *.
      assert (Hc : retries st0 = 2%Z \/ retries st0 = 3%Z) by lia.
      destruct Hc as [-> | ->]; [right | left]; reflexivity. }
    destruct r as [rs next|code|]; cbn [attempt].
    + destruct next as [url|]; [|constructor].
      destruct (String.eqb url EmptyString); [constructor|].
      match goal with |- context [run script ?s] =>
        specialize (IH s ltac:(cbn [retries]; lia));
        destruct (run script s) as [o t] end.
      exact IH.
    + destruct (code =? 403)%Z; [constructor | apply Hretry].
    + apply Hretry.
Qed.

(** X6.  Whatever the server answers, the fetch never sleeps anything but
    2 or 4 seconds at a time. *)
Theorem fetch_sleeps_two_or_four_seconds :
  forall (bbox min_year : string) (script : list (response R)),
    Forall (fun s => s = 2%Z \/ s = 4%Z)
           (sleeps (snd (fetch_all_pages_dvf_api bbox min_year script))).
Proof.
  intros bbox min_year script. unfold fetch_all_pages_dvf_api.
  destruct (String.eqb bbox EmptyString || String.eqb min_year EmptyString).
  - constructor.
  - apply run_sleeps. simpl. lia.
Qed.

End PaginationFacts.

(* ================================================================= *)
(** * Further properties of the refiner *)

Section RefinerOrder.
Import Py Refiner Pipeline.
Context {I : Interpreter}.

Lemma build_entry_raw (entry : raw_entry) (c : Z * float * float * float)
    (r : refined_entry) :
  build_entry entry c = Ok r -> raw_entry_of r = entry.
Proof.
  destruct c as [[[year value] l_area] b_area]. unfold build_entry, bind.
  destruct (py_int (get_default (nbpar entry) (PInt 0))); [|discriminate].
  destruct (py_int (get_default (nbparmut entry) (PInt 0))); [|discriminate].
  destruct (py_int (get_default (nbvolmut entry) (PInt 0))); [|discriminate].
  destruct (py_int (get_default (nblocmut entry) (PInt 0))); [|discriminate].
  destruct (py_int (get_default (nbcomm entry) (PInt 0))); [|discriminate].
  intros H. inversion H; subst; clear H. reflexivity.
Qed.

Lemma refine_entry_raw (entry : raw_entry) (r : refined_entry) :
  refine_entry entry = Ok (Some r) -> raw_entry_of r = entry.
Proof.
  unfold refine_entry.
  destruct (convert_guarded entry) as [c|e].
  - unfold bind. destruct (build_entry entry c) as [r'|e] eqn:E; [|discriminate].
    intros H. inversion H; subst. exact (build_entry_raw _ _ _ E).
  - destruct e; discriminate.
Qed.

(** A run of the loop that returns met no entry that raises. *)
Lemma refine_loop_no_raise (l : list raw_entry) :
  forall acc rs,
    refine_loop l acc = Ok rs ->
    forall e, In e l -> exists o, refine_entry e = Ok o.
Proof.
  induction l as [|x l IH]; intros acc rs H e He; [contradiction|].
  simpl in H. destruct (refine_entry x) as [o|ex] eqn:E; simpl in H; [|discriminate].
  destruct He as [<-|He]; [eauto|].
  destruct o; eapply IH; eauto.
Qed.

Lemma refine_dvf_data_loop (l : list raw_entry) :
  refine_dvf_data l = refine_loop l [].
Proof.
  destruct l; reflexivity.
Qed.

(** The list returned by the loop, and the raw records it carries. *)
Lemma refined_of_kept (l : list raw_entry) (rs : list refined_entry) :
  refine_dvf_data l = Ok rs ->
  rs = flat_map (fun e => match refine_entry e with
                          | Ok (Some r) => [r]
                          | _ => []
                          end) l
  /\ map raw_entry_of rs = filter kept l.
Proof.
  intros H. rewrite refine_dvf_data_loop in H.
  pose proof (refine_loop_no_raise l [] rs H) as Hok.
  rewrite (refine_loop_in_order l Hok []) in H. simpl in H.
  inversion H; subst; clear H. split; [reflexivity|].
  clear Hok. induction l as [|e l IH]; simpl; [reflexivity|].
  rewrite map_app, IH. unfold kept.
  destruct (refine_entry e) as [[r|]|x] eqn:E; simpl; try reflexivity.
  rewrite (refine_entry_raw e r E). reflexivity.
Qed.

(** X7.  When the refiner returns, its output lists the kept records in
    input order and nothing else: the raw records carried by the refined
    entries are the kept records of the input, one refined entry each, so
    the output is no longer than the input; and refining the raw record
    that an entry carries gives that entry again. *)
Theorem refined_entries_follow_the_input :
  forall (l : list raw_entry) (rs : list refined_entry),
    refine_dvf_data l = Ok rs ->
    map raw_entry_of rs = filter kept l
    /\ List.length rs <= List.length l
    /\ forall r, In r rs -> refine_entry (raw_entry_of r) = Ok (Some r).
Proof.
  intros l rs H. destruct (refined_of_kept l rs H) as [Hrs Hmap].
  split; [exact Hmap|]. split.
  - rewrite <- (length_map raw_entry_of), Hmap. apply filter_length_le.
  - intros r Hr. rewrite Hrs in Hr.
    apply in_flat_map in Hr. destruct Hr as (e & _ & Hr).
    destruct (refine_entry e) as [[r'|]|x] eqn:E; simpl in Hr; try contradiction.
    destruct Hr as [<-|[]]. rewrite (refine_entry_raw e r' E). exact E.
Qed.

Lemma py_float_falsy (v : pyval) :
  truthy v = false -> py_float (py_or v (PFloat 0)) = Ok 0%float.
Proof.
  intros H. unfold py_or. rewrite H. reflexivity.
Qed.

(** X8.  Missing keys never make a record fail.  A record without the
    year and the five counts, whose value and two areas are absent or
    falsy ([null], [0], [0.0], [""], [False], [[]]), is refined, not
    skipped: the year and the counts are 0, the value and the areas 0.0,
    and neither price is derived, so the record has no valid price. *)
Theorem absent_keys_refine_to_zeros :
  forall entry : raw_entry,
    anneemut entry = None ->
    truthy (get_default (valeurfonc entry) PNone) = false ->
    truthy (get_default (sterr entry) PNone) = false ->
    truthy (get_default (sbati entry) PNone) = false ->
    nbpar entry = None ->
    nbparmut entry = None ->
    nbvolmut entry = None ->
    nblocmut entry = None ->
    nbcomm entry = None ->
    exists r : refined_entry,
      refine_entry entry = Ok (Some r)
      /\ raw_entry_of r = entry
      /\ mutation_year r = 0%Z
      /\ (land_value r, land_area r, built_area r) = (0, 0, 0)%float
      /\ (nb_parcels r, nb_parcels_mutated r, nb_volumes_mutated r,
          nb_locals_mutated r, nb_communes r) = (0, 0, 0, 0, 0)%Z
      /\ price_per_m2 r = None
      /\ price_per_m2_land r = None
      /\ Statistics.valid_price r = false.
Proof.
  intros entry Hy Hv Hl Hb H1 H2 H3 H4 H5.
  unfold refine_entry, convert_guarded, build_entry, bind.
  rewrite Hy, H1, H2, H3, H4, H5. cbn [get_default py_int].
  rewrite (py_float_falsy _ Hv), (py_float_falsy _ Hl), (py_float_falsy _ Hb).
  eexists. split; [reflexivity|]. cbn.
  repeat split.
Qed.

End RefinerOrder.

(** X7 at work: of three records the second has a null year and is
    skipped; the first and the third come out in this order. *)
Lemma refined_entries_follow_the_input_witness :
  exists rs : list Refiner.refined_entry,
    Refiner.refine_dvf_data (I := CPython.left_to_right)
      [Refiner.sale "a" 2022 (Py.PInt 300000) (Py.PInt 100);
       Refiner.with_anneemut Py.PNone (Refiner.sale "b" 2022 (Py.PInt 250000) (Py.PInt 80));
       Refiner.sale "c" 2023 (Py.PStr "200000.50") (Py.PInt 50)]
    = Py.Ok rs
    /\ map Refiner.raw_entry_of rs
       = [Refiner.sale "a" 2022 (Py.PInt 300000) (Py.PInt 100);
          Refiner.sale "c" 2023 (Py.PStr "200000.50") (Py.PInt 50)].
Proof.
  eexists. split; [vm_compute; reflexivity|].
  refine (eq_trans (proj1 (refined_entries_follow_the_input (I := CPython.left_to_right)
                             [Refiner.sale "a" 2022 (Py.PInt 300000) (Py.PInt 100);
                              Refiner.with_anneemut Py.PNone
                                (Refiner.sale "b" 2022 (Py.PInt 250000) (Py.PInt 80));
                              Refiner.sale "c" 2023 (Py.PStr "200000.50") (Py.PInt 50)]
                             _ _)) _).
  - vm_compute; reflexivity.
  - vm_compute; reflexivity.
Defined.

(** X8 at work on the record without any key. *)
Lemma absent_keys_refine_to_zeros_witness :
  exists r : Refiner.refined_entry,
    Refiner.refine_entry (I := CPython.left_to_right) Refiner.empty_entry = Py.Ok (Some r)
    /\ Refiner.price_per_m2 r = None.
Proof.
  destruct (absent_keys_refine_to_zeros (I := CPython.left_to_right) Refiner.empty_entry
              eq_refl eq_refl eq_refl eq_refl eq_refl eq_refl eq_refl eq_refl eq_refl)
    as (r & Hr & _ & _ & _ & _ & Hp & _).
  exists r. split; [exact Hr | exact Hp].
Defined.

(* ================================================================= *)
(** * Further properties of the statistics engine *)

Section PipelineFacts.
Import Py Refiner Statistics Pipeline.
Context {I : Interpreter}.


End PipelineFacts.


Section CountFacts.
Import Py Refiner Statistics.
Context {I : Interpreter}.

Lemma group_by_as_filing {K} (eqb : K -> K -> bool) (key : refined_entry -> K)
    (l : list refined_entry) :
  Dict.group_by eqb key l =
    fold_left (fun d e => fold_left (fun d1 k0 => Dict.append_to eqb k0 e d1)
                                    ((fun e => [key e]) e) d) l [].
Proof.
  reflexivity.
Qed.

(** X10.  Every transaction is counted under exactly one department, the
    key [None] standing for a missing code: the department counters add up
    to [total_transactions]. *)
Theorem department_counts_add_up :
  forall (l : list refined_entry) (s : stats),
    calculate_comprehensive_statistics l = Report s ->
    list_sum (Dict.values (departments (geographic_stats s))) = total_transactions s
    /\ forall k, count_of label_eqb k (departments (geographic_stats s))
                 = List.length (filter (fun e => label_eqb k (department_code e)) l).
Proof.
  intros l s Hs.
  destruct (report_of_nonempty l s Hs) as (_ & Ht & _ & _ & _ & _ & _ & _ & _ & Hg).
  rewrite Hg, Ht, geographic_of_eq. cbn [departments]. split.
  - rewrite values_counts, group_by_as_filing.
    rewrite (held_filed label_eqb (fun e => [department_code e])). simpl.
    clear. induction l as [|e l' IH]; simpl; [reflexivity|].
    f_equal. apply IH.
  - intros k. unfold count_of. rewrite get_counts, get_group_by.
    destruct (filter (fun e => label_eqb k (department_code e)) l); reflexivity.
Qed.

(** X11.  The year range brackets the input: both bounds are years of
    entries, the lower is at most the upper, and the year of every entry
    lies between them, entries without valid price included. *)
Theorem year_range_brackets_the_input :
  forall (l : list refined_entry) (s : stats),
    calculate_comprehensive_statistics l = Report s ->
    exists lo hi : Z,
      year_range s = {| year_min := Some lo; year_max := Some hi |}
      /\ In lo (map mutation_year l)
      /\ In hi (map mutation_year l)
      /\ (lo <= hi)%Z
      /\ forall e, In e l -> (lo <= mutation_year e <= hi)%Z.
Proof.
  intros l s Hs.
  destruct (report_of_nonempty l s Hs) as (Hne & _ & _ & _ & Hy & _).
  rewrite Hy. destruct l as [|e0 l']; [contradiction|].
  cbn [map int_min int_max].
  destruct (fold_min_spec (map mutation_year l') (mutation_year e0)) as [Hmin Hlo].
  destruct (fold_max_spec (map mutation_year l') (mutation_year e0)) as [Hmax Hhi].
  eexists. eexists. split; [reflexivity|].
  split; [exact Hmin|]. split; [exact Hmax|]. split.
  - apply Hlo. exact Hmax.
  - intros e He.
    assert (Hin : In (mutation_year e) (mutation_year e0 :: map mutation_year l')).
    { change (In (mutation_year e) (map mutation_year (e0 :: l'))).
      apply in_map, He. }
    split; [apply Hlo | apply Hhi]; exact Hin.
Qed.

Lemma filter_split_length {A} (p : A -> bool) (l : list A) :
  List.length (filter p l) + List.length (filter (fun x => negb (p x)) l)
  = List.length l.
Proof.
  induction l as [|x l IH]; simpl; [reflexivity|].
  destruct (p x); simpl; lia.
Qed.

Lemma filter_filter_comm {A} (p q : A -> bool) (l : list A) :
  filter p (filter q l) = filter q (filter p l).
Proof.
  induction l as [|x l IH]; simpl; [reflexivity|].
  destruct (p x) eqn:Ep; destruct (q x) eqn:Eq; simpl; rewrite ?Ep, ?Eq, IH; reflexivity.
Qed.

Lemma group_stats_of_counts (g : list refined_entry) :
  match group_stats_of g with
  | Some v => count v = List.length g
              /\ valid_price_count v = List.length (filter valid_price g)
              /\ 1 <= valid_price_count v
  | None => filter valid_price g = []
  end.
Proof.
  unfold group_stats_of. destruct (filter valid_price g) eqn:E; [reflexivity|].
  simpl. repeat split. lia.
Qed.

(** X12.  The VEFA flag splits the transactions in two: the valid-price
    counts of the VEFA and classic groups add up to
    [valid_price_transactions], a group that is left out standing for no
    valid price; their transaction counts add up to [total_transactions]
    when both groups are reported, and to less when one is left out with
    entries of its own. *)
Theorem vefa_groups_split_the_input :
  forall (l : list refined_entry) (s : stats),
    calculate_comprehensive_statistics l = Report s ->
    let valid_of g := match g with Some v => valid_price_count v | None => 0 end in
    let count_of_group g := match g with Some v => count v | None => 0 end in
    valid_of (vefa_group (vefa_vs_classic s))
      + valid_of (classic_group (vefa_vs_classic s))
    = valid_price_transactions s
    /\ count_of_group (vefa_group (vefa_vs_classic s))
         + count_of_group (classic_group (vefa_vs_classic s))
       <= total_transactions s
    /\ (forall v c, vefa_group (vefa_vs_classic s) = Some v ->
                    classic_group (vefa_vs_classic s) = Some c ->
                    count v + count c = total_transactions s).
Proof.
  intros l s Hs valid_of count_of_group.
  destruct (report_of_nonempty l s Hs) as (_ & Ht & Hv & _ & _ & _ & _ & _ & Hve & _).
  rewrite Hve, Ht, Hv. cbn [vefa_group classic_group].
  pose proof (group_stats_of_counts (filter is_vefa l)) as H1.
  pose proof (group_stats_of_counts (filter (fun e => negb (is_vefa e)) l)) as H2.
  pose proof (filter_split_length is_vefa l) as Hsplit.
  pose proof (filter_split_length is_vefa (filter valid_price l)) as Hvsplit.
  rewrite (filter_filter_comm is_vefa valid_price) in Hvsplit.
  rewrite (filter_filter_comm (fun e => negb (is_vefa e)) valid_price) in Hvsplit.
  subst valid_of count_of_group.
  destruct (group_stats_of (filter is_vefa l)) as [v|];
    destruct (group_stats_of (filter (fun e => negb (is_vefa e)) l)) as [c|];
    cbn beta iota.
  - destruct H1 as (C1 & V1 & _). destruct H2 as (C2 & V2 & _).
    repeat split; try lia.
    intros v0 c0 Ev Ec. inversion Ev; inversion Ec; subst. lia.
  - destruct H1 as (C1 & V1 & _). rewrite H2 in Hvsplit. simpl in Hvsplit.
    repeat split; try lia. intros; discriminate.
  - destruct H2 as (C2 & V2 & _). rewrite H1 in Hvsplit. simpl in Hvsplit.
    repeat split; try lia. intros; discriminate.
  - rewrite H1, H2 in Hvsplit. simpl in Hvsplit.
    repeat split; try lia. intros; discriminate.
Qed.

End CountFacts.

Section SpreadFacts.
Import Py Refiner Statistics.
Context {I : Interpreter}.
Local Open Scope float_scope.

Lemma py_min_spec (l : list float) :
  l <> [] -> Forall PyFloat.positive l ->
  In (py_min l) l /\ forall y, In y l -> (py_min l <=? y) = true.
Proof.
  intros Hne Hpos. destruct l as [|x xs]; [contradiction|].
  inversion Hpos as [|? ? Hx Hxs]; subst. unfold py_min.
  pose proof (extremum_in (fun a b => a <? b) xs x) as Hin.
  split; [exact Hin|]. intros y Hy.
  rewrite Forall_forall in Hpos.
  rewrite leb_not_lt by auto.
  rewrite (extremum_bound (fun a b => a <? b) lt_irrefl lt_asym
             (fun a b c Ha Hb Hc => le_trans a b c Ha Hb Hc) xs x Hx Hxs y Hy).
  reflexivity.
Qed.

Lemma py_max_spec (l : list float) :
  l <> [] -> Forall PyFloat.positive l ->
  In (py_max l) l /\ forall y, In y l -> (y <=? py_max l) = true.
Proof.
  intros Hne Hpos. destruct l as [|x xs]; [contradiction|].
  inversion Hpos as [|? ? Hx Hxs]; subst. unfold py_max.
  pose proof (extremum_in (fun a b => PyFloat.gtb a b) xs x) as Hin.
  split; [exact Hin|]. intros y Hy.
  rewrite Forall_forall in Hpos.
  rewrite leb_not_lt by auto.
  pose proof (extremum_bound (fun a b => PyFloat.gtb a b)
                lt_irrefl
                (fun a b Ha Hb => lt_asym b a Hb Ha)
                (fun a b c Ha Hb Hc H1 H2 => le_trans c b a Hc Hb Ha H2 H1)
                xs x Hx Hxs y Hy) as Hb.
  unfold PyFloat.gtb in Hb |- *. rewrite Hb. reflexivity.
Qed.

Lemma median_in (l : list float) : l <> [] -> In (median l) l.
Proof.
  intros Hne. pose proof (median_in_range l Hne) as H.
  apply nth_error_In in H.
  eapply Permutation_in; [apply py_sorted_perm | exact H].
Qed.

(** Minimum, median and maximum of a list of positive doubles are
    elements of the list, in this order. *)
Lemma spread_ordered (l : list float) :
  l <> [] -> Forall PyFloat.positive l ->
  In (py_min l) l /\ In (median l) l /\ In (py_max l) l
  /\ (py_min l <=? median l) = true
  /\ (median l <=? py_max l) = true.
Proof.
  intros Hne Hpos.
  destruct (py_min_spec l Hne Hpos) as [Hmin Hlo].
  destruct (py_max_spec l Hne Hpos) as [Hmax Hhi].
  pose proof (median_in l Hne) as Hmed.
  repeat split; auto.
Qed.

(** X13.  The reported minimum, median and maximum of [price_per_m2] are
    prices of entries with a valid price, the minimum is [> 0], and
    [min <= median <= max]; the same holds for the price figures of every
    property type, among the valid prices of that type. *)
Theorem price_spread_is_ordered :
  forall (l : list refined_entry) (s : stats) (f : financial),
    calculate_comprehensive_statistics l = Report s ->
    financial_stats s = Some f ->
    let prices := map price (filter valid_price l) in
    let p := fin_price_per_m2 f in
    (In (price_min p) prices /\ In (price_median p) prices /\ In (price_max p) prices
     /\ PyFloat.positive (price_min p)
     /\ (price_min p <=? price_median p) = true
     /\ (price_median p <=? price_max p) = true)
    /\ forall (k : label) (t : type_stats),
         Dict.get label_eqb k (by_property_type s) = Some t ->
         let prices_of_type :=
           map price (filter valid_price
                        (filter (fun e => label_eqb k (property_type_label e)) l)) in
         In (type_price_min t) prices_of_type
         /\ In (type_price_median t) prices_of_type
         /\ In (type_price_max t) prices_of_type
         /\ (type_price_min t <=? type_price_median t) = true
         /\ (type_price_median t <=? type_price_max t) = true.
Proof.
  intros l s f Hs Hf prices p.
  destruct (report_of_nonempty l s Hs) as (_ & _ & _ & _ & _ & Hfin & Hty & _).
  split.
  - rewrite Hfin in Hf. subst p prices.
    pose proof (valid_prices_positive l) as Hpos.
    destruct (filter valid_price l) as [|e v] eqn:E; [discriminate|].
    simpl in Hf. inversion Hf; subst; clear Hf.
    cbn [fin_price_per_m2 price_min price_median price_max].
    destruct (spread_ordered (map price (e :: v)) ltac:(discriminate) Hpos)
      as (H1 & H2 & H3 & H4 & H5).
    repeat split; auto.
    rewrite Forall_forall in Hpos. apply Hpos, H1.
  - intros k t Hk prices_of_type. rewrite Hty in Hk.
    rewrite (get_by_key type_stats_of property_type_label k l eq_refl) in Hk.
    subst prices_of_type. unfold type_stats_of in Hk.
    pose proof (valid_prices_positive
                  (filter (fun e => label_eqb k (property_type_label e)) l)) as Hpos.
    destruct (filter valid_price
                (filter (fun e => label_eqb k (property_type_label e)) l))
      as [|e v] eqn:E; [discriminate|].
    inversion Hk; subst; clear Hk.
    cbn [type_price_min type_price_median type_price_max].
    destruct (spread_ordered (map price (e :: v)) ltac:(discriminate) Hpos)
      as (H1 & H2 & H3 & H4 & H5).
    repeat split; auto.
Qed.

End SpreadFacts.

Section WeightFacts.
Context {K E : Type}.
Variable eqb : K -> K -> bool.
Variable w : E -> nat.

(** The weight held by the values of a dictionary of lists. *)
Let weight (d : Dict.dict K (list E)) : nat :=
  list_sum (map (fun kv => list_sum (map w (snd kv))) d).

Lemma weight_append_to (k : K) (e : E) (d : Dict.dict K (list E)) :
  weight (Dict.append_to eqb k e d) = weight d + w e.
Proof.
  unfold weight, Dict.append_to.
  induction d as [|[k' es] d IH]; simpl.
  - lia.
  - destruct (eqb k k'); simpl.
    + rewrite map_app, list_sum_app. simpl. lia.
    + rewrite IH. lia.
Qed.

Lemma weight_group_by (key : E -> K) (l : list E) :
  weight (Dict.group_by eqb key l) = list_sum (map w l).
Proof.
  unfold Dict.group_by.
  assert (H : forall d, weight (fold_left (fun d e => Dict.append_to eqb (key e) e d) l d)
                        = weight d + list_sum (map w l)).
  { induction l as [|e l IH]; intros d; simpl; [lia|].
    rewrite IH, weight_append_to. lia. }
  rewrite H. reflexivity.
Qed.

End WeightFacts.

Section GroupFacts.
Import Py Refiner Statistics.
Context {I : Interpreter}.

Lemma filter_length_as_sum {A} (p : A -> bool) (l : list A) :
  List.length (filter p l) = list_sum (map (fun e => if p e then 1 else 0) l).
Proof.
  induction l as [|e l IH]; simpl; [reflexivity|].
  destruct (p e); simpl; rewrite IH; reflexivity.
Qed.

Lemma length_as_sum {A} (l : list A) :
  List.length l = list_sum (map (fun _ => 1) l).
Proof.
  induction l as [|e l IH]; simpl; [reflexivity|]. rewrite IH. reflexivity.
Qed.

Lemma type_stats_of_counts (g : list refined_entry) :
  match type_stats_of g with
  | Some t => type_count t = List.length g
              /\ type_valid_price_count t = List.length (filter valid_price g)
              /\ 1 <= type_valid_price_count t
  | None => filter valid_price g = []
  end.
Proof.
  unfold type_stats_of. destruct (filter valid_price g) eqn:E; [reflexivity|].
  simpl. repeat split. lia.
Qed.

(** Sums over the values of a dictionary filled by a grouping loop. *)
Lemma per_group_sums {V} (f : list refined_entry -> option V)
    (valid_count_of count_of_value : V -> nat)
    (groups : Dict.dict label (list refined_entry)) :
  (forall g, match f g with
             | Some v => count_of_value v = List.length g
                         /\ valid_count_of v = List.length (filter valid_price g)
                         /\ 1 <= valid_count_of v
             | None => filter valid_price g = []
             end) ->
  list_sum (map valid_count_of (Dict.values (per_group f groups)))
  = list_sum (map (fun kv => list_sum (map (fun e => if valid_price e then 1 else 0)
                                           (snd kv))) groups)
  /\ list_sum (map count_of_value (Dict.values (per_group f groups)))
     <= list_sum (map (fun kv => list_sum (map (fun _ => 1) (snd kv))) groups).
Proof.
  intros Hf. unfold per_group, Dict.values.
  induction groups as [|[k g] groups [IH1 IH2]]; simpl; [split; lia|].
  rewrite !map_app, !list_sum_app, IH1.
  specialize (Hf g). rewrite <- filter_length_as_sum, <- length_as_sum.
  destruct (f g) as [v|]; simpl.
  - destruct Hf as (Hc & Hv & _). rewrite Hc, Hv. split; lia.
  - rewrite Hf. simpl. split; lia.
Qed.

(** X14.  The property types, and likewise the mutation natures, split
    the valid prices among them: the valid-price counts of the listed
    types add up to [valid_price_transactions].  Their transaction counts
    add up to [total_transactions] at most, the transactions of a type
    without valid price being in no listed group. *)
Theorem groups_split_the_valid_prices :
  forall (l : list refined_entry) (s : stats),
    calculate_comprehensive_statistics l = Report s ->
    list_sum (map type_valid_price_count (Dict.values (by_property_type s)))
    = valid_price_transactions s
    /\ list_sum (map type_count (Dict.values (by_property_type s)))
       <= total_transactions s
    /\ list_sum (map valid_price_count (Dict.values (by_mutation_nature s)))
       = valid_price_transactions s
    /\ list_sum (map count (Dict.values (by_mutation_nature s)))
       <= total_transactions s.
Proof.
  intros l s Hs.
  destruct (report_of_nonempty l s Hs) as (_ & Ht & Hv & _ & _ & _ & Hty & Hna & _).
  rewrite Hty, Hna, Ht, Hv.
  destruct (per_group_sums type_stats_of type_valid_price_count type_count
              (Dict.group_by label_eqb property_type_label l) type_stats_of_counts)
    as [T1 T2].
  destruct (per_group_sums group_stats_of valid_price_count count
              (Dict.group_by label_eqb mutation_nature l) group_stats_of_counts)
    as [N1 N2].
  rewrite (weight_group_by label_eqb (fun e => if valid_price e then 1 else 0)) in T1, N1.
  rewrite (weight_group_by label_eqb (fun _ => 1)) in T2, N2.
  rewrite <- filter_length_as_sum in T1, N1. rewrite <- length_as_sum in T2, N2.
  auto.
Qed.

(** X15.  A property type is listed in [by_property_type] exactly when
    one of its transactions has a valid price; its [count] is then the
    number of all transactions of the type, its [valid_price_count] the
    number of those with a valid price, at least one and at most
    [count]. *)
Theorem property_type_is_listed_iff_valid_price :
  forall (l : list refined_entry) (s : stats) (k : label),
    calculate_comprehensive_statistics l = Report s ->
    let of_type := filter (fun e => label_eqb k (property_type_label e)) l in
    (Dict.get label_eqb k (by_property_type s) = None
     <-> forall e, In e l -> property_type_label e = k -> valid_price e = false)
    /\ forall t, Dict.get label_eqb k (by_property_type s) = Some t ->
         type_count t = List.length of_type
         /\ type_valid_price_count t = List.length (filter valid_price of_type)
         /\ 1 <= type_valid_price_count t <= type_count t.
Proof.
  intros l s k Hs of_type.
  destruct (report_of_nonempty l s Hs) as (_ & _ & _ & _ & _ & _ & Hty & _).
  rewrite Hty, (get_by_key type_stats_of property_type_label k l eq_refl).
  fold of_type. pose proof (type_stats_of_counts of_type) as Hc.
  split.
  - destruct (type_stats_of of_type) as [t|].
    + destruct Hc as (_ & Hv & H1). split; [discriminate|].
      intros Hall. exfalso.
      destruct (filter valid_price of_type) as [|e v] eqn:E; [simpl in Hv; lia|].
      assert (He : In e (filter valid_price of_type)) by (rewrite E; left; reflexivity).
      apply filter_In in He. destruct He as [He Hvalid].
      apply filter_In in He. destruct He as [He Hk].
      apply label_eqb_eq in Hk.
      rewrite (Hall e He (eq_sym Hk)) in Hvalid. discriminate.
    + split; [|reflexivity]. intros _ e He Hk.
      destruct (valid_price e) eqn:Ev; [|reflexivity].
      assert (Hin : In e (filter valid_price of_type)).
      { apply filter_In. split; [|exact Ev].
        apply filter_In. split; [exact He|]. apply label_eqb_eq. auto. }
      rewrite Hc in Hin. contradiction.
  - intros t Ht. rewrite Ht in Hc. destruct Hc as (Hcount & Hv & H1).
    repeat split; auto.
    rewrite Hv, Hcount. apply filter_length_le.
Qed.

End GroupFacts.

Section UniqueFacts.
Import Py Refiner Statistics.
Context {I : Interpreter}.

Lemma filter_nil_iff {A} (p : A -> bool) (l : list A) :
  filter p l = [] <-> forall x, In x l -> p x = false.
Proof.
  induction l as [|x l IH]; simpl.
  - split; [intros _ y [] | reflexivity].
  - destruct (p x) eqn:E.
    + split; [discriminate|]. intros H. specialize (H x (or_introl eq_refl)). congruence.
    + rewrite IH. split.
      * intros H y [<-|Hy]; auto.
      * intros H y Hy. apply H. auto.
Qed.

Lemma department_key_iff (l : list refined_entry) (k : label) :
  In k (Dict.keys (Dict.group_by label_eqb department_code l))
  <-> In k (map department_code l).
Proof.
  rewrite (in_keys_iff label_eqb label_eqb_eq), get_group_by, in_map_iff.
  split.
  - intros H.
    destruct (filter (fun e => label_eqb k (department_code e)) l) as [|e g] eqn:E;
      [contradiction H; reflexivity|].
    assert (He : In e (filter (fun e => label_eqb k (department_code e)) l))
      by (rewrite E; left; reflexivity).
    apply filter_In in He. destruct He as [He Hk]. apply label_eqb_eq in Hk.
    exists e. auto.
  - intros (e & Hk & He).
    destruct (filter (fun e => label_eqb k (department_code e)) l) as [|e' g] eqn:E;
      [|discriminate].
    exfalso. rewrite filter_nil_iff in E. specialize (E e He).
    rewrite (proj2 (label_eqb_eq k (department_code e)) (eq_sym Hk)) in E.
    discriminate.
Qed.

Lemma copies_nil_iff (code : string) (l : list refined_entry) :
  flat_map (fun e => flat_map (fun k' => if String.eqb code k' then [e] else [])
                              (insee_codes e)) l = []
  <-> ~ In code (flat_map insee_codes l).
Proof.
  induction l as [|e l IH]; simpl.
  - tauto.
  - rewrite in_app_iff. split.
    + intros H. apply app_eq_nil in H. destruct H as [H1 H2].
      rewrite IH in H2. intros [Hin|Hin]; [|contradiction].
      clear -H1 Hin. induction (insee_codes e) as [|c cs IHc]; [contradiction|].
      simpl in H1. destruct (String.eqb code c) eqn:Ec; [discriminate|].
      destruct Hin as [->|Hin]; [rewrite String.eqb_refl in Ec; discriminate|].
      apply IHc; assumption.
    + intros H.
      assert (H1 : ~ In code (insee_codes e)) by tauto.
      assert (H2 : ~ In code (flat_map insee_codes l)) by tauto.
      rewrite (proj2 IH H2), app_nil_r.
      clear -H1. induction (insee_codes e) as [|c cs IHc]; [reflexivity|].
      simpl. destruct (String.eqb code c) eqn:Ec.
      * apply String.eqb_eq in Ec. subst. exfalso. apply H1. left. reflexivity.
      * apply IHc. intros Hin. apply H1. right. exact Hin.
Qed.

(** X16.  [nb_unique_departments] and [nb_unique_communes] count distinct
    values: the first is the number of different department codes of the
    entries, a missing code being one more value, and the number of keys
    of the department counters; the second is the number of different
    INSEE codes listed by the entries, and the number of keys of the
    commune counters.  No key occurs twice in either dictionary. *)
Theorem unique_counts_count_distinct_codes :
  forall (l : list refined_entry) (s : stats),
    calculate_comprehensive_statistics l = Report s ->
    let g := geographic_stats s in
    NoDup (Dict.keys (departments g))
    /\ NoDup (Dict.keys (communes g))
    /\ nb_unique_departments g = List.length (departments g)
    /\ nb_unique_communes g = List.length (communes g)
    /\ (forall ds : list label,
          NoDup ds -> (forall k, In k ds <-> In k (map department_code l)) ->
          nb_unique_departments g = List.length ds)
    /\ (forall cs : list string,
          NoDup cs -> (forall c, In c cs <-> In c (flat_map insee_codes l)) ->
          nb_unique_communes g = List.length cs).
Proof.
  intros l s Hs g. subst g.
  destruct (report_of_nonempty l s Hs) as (_ & _ & _ & _ & _ & _ & _ & _ & _ & Hg).
  rewrite Hg, geographic_of_eq.
  cbn [departments communes nb_unique_departments nb_unique_communes].
  rewrite !keys_counts.
  assert (Hnd : NoDup (Dict.keys (Dict.group_by label_eqb department_code l)))
    by apply nodup_group_by.
  set (by_commune :=
         fold_left (fun c e =>
                      fold_left (fun c1 code => Dict.append_to String.eqb code e c1)
                                (insee_codes e) c) l []).
  assert (Hnc : NoDup (Dict.keys by_commune)).
  { apply (nodup_filed String.eqb String.eqb_eq). constructor. }
  assert (Hkey : forall c, In c (Dict.keys by_commune) <-> In c (flat_map insee_codes l)).
  { intros c. rewrite (in_keys_iff String.eqb String.eqb_eq).
    unfold by_commune. rewrite (get_filed String.eqb String.eqb_eq insee_codes).
    cbn [Dict.get].
    pose proof (copies_nil_iff c l) as Hnil.
    destruct (flat_map (fun e => flat_map (fun k' => if String.eqb c k' then [e] else [])
                                          (insee_codes e)) l) as [|x xs].
    - split; [intros H; contradiction H; reflexivity|].
      intros Hin. exfalso. apply (proj1 Hnil eq_refl), Hin.
    - split; [|discriminate]. intros _.
      destruct (in_dec string_dec c (flat_map insee_codes l)) as [Hin|Hn]; [exact Hin|].
      apply Hnil in Hn. discriminate. }
  unfold counts. rewrite !length_map.
  repeat split; auto.
  - intros ds Hds Hk.
    rewrite <- (length_map fst (Dict.group_by label_eqb department_code l)).
    apply Permutation_length, NoDup_Permutation; auto.
    intros k. fold (Dict.keys (Dict.group_by label_eqb department_code l)).
    rewrite department_key_iff, Hk. tauto.
  - intros cs Hcs Hc.
    rewrite <- (length_map fst by_commune).
    apply Permutation_length, NoDup_Permutation; auto.
    intros c. fold (Dict.keys by_commune). rewrite Hkey, Hc. tauto.
Qed.

End UniqueFacts.

(* ================================================================= *)
(** * The further properties on the five sales of [Sample.sales] *)

Section SampleRuns.
Import Py Refiner Statistics.
Let report_of := calculate_comprehensive_statistics (I := CPython.left_to_right).

(** X10 at work: the five sales are counted under 75, 92 and [None]. *)
Lemma department_counts_add_up_witness :
  exists s : stats,
    report_of Sample.sales = Report s
    /\ list_sum (Dict.values (departments (geographic_stats s))) = total_transactions s
    /\ total_transactions s = 5.
Proof.
  eexists. split; [reflexivity|]. split; [|reflexivity].
  exact (proj1 (department_counts_add_up (I := CPython.left_to_right)
                  Sample.sales _ eq_refl)).
Defined.

(** X11 at work: the years of the five sales run from 2021 to 2023. *)
Lemma year_range_brackets_the_input_witness :
  exists (s : stats) (lo hi : Z),
    report_of Sample.sales = Report s
    /\ year_range s = {| year_min := Some lo; year_max := Some hi |}
    /\ (lo <= hi)%Z.
Proof.
  eexists.
  destruct (year_range_brackets_the_input (I := CPython.left_to_right)
              Sample.sales _ eq_refl) as (lo & hi & Hy & _ & _ & Hle & _).
  exists lo, hi. split; [reflexivity|]. split; [exact Hy | exact Hle].
Defined.

(** X12 at work: one off-plan sale and three classic ones have a valid
    price. *)
Lemma vefa_groups_split_the_input_witness :
  exists s : stats,
    report_of Sample.sales = Report s
    /\ match vefa_group (vefa_vs_classic s) with
       | Some v => valid_price_count v
       | None => 0
       end
       + match classic_group (vefa_vs_classic s) with
         | Some v => valid_price_count v
         | None => 0
         end
       = valid_price_transactions s
    /\ valid_price_transactions s = 4.
Proof.
  eexists. split; [reflexivity|]. split; [|reflexivity].
  exact (proj1 (vefa_groups_split_the_input (I := CPython.left_to_right)
                  Sample.sales _ eq_refl)).
Defined.

(** X13 at work: the prices of the sample run from 3000 to 5000. *)
Lemma price_spread_is_ordered_witness :
  exists (s : stats) (f : financial),
    report_of Sample.sales = Report s
    /\ financial_stats s = Some f
    /\ (price_min (fin_price_per_m2 f) <=? price_median (fin_price_per_m2 f))%float = true
    /\ (price_median (fin_price_per_m2 f) <=? price_max (fin_price_per_m2 f))%float = true.
Proof.
  eexists. eexists. split; [reflexivity|]. split; [reflexivity|].
  destruct (price_spread_is_ordered (I := CPython.left_to_right)
              Sample.sales _ _ eq_refl eq_refl) as [(_ & _ & _ & _ & H1 & H2) _].
  split; [exact H1 | exact H2].
Defined.

(** X14 at work: flats and houses share the four valid prices. *)
Lemma groups_split_the_valid_prices_witness :
  exists s : stats,
    report_of Sample.sales = Report s
    /\ list_sum (map type_valid_price_count (Dict.values (by_property_type s)))
       = valid_price_transactions s
    /\ map (fun kv => (fst kv, type_count (snd kv), type_valid_price_count (snd kv)))
           (by_property_type s)
       = [(Some "Appartement"%string, 3, 3); (Some "Maison"%string, 2, 1)].
Proof.
  eexists. split; [reflexivity|]. split; [|reflexivity].
  exact (proj1 (groups_split_the_valid_prices (I := CPython.left_to_right)
                  Sample.sales _ eq_refl)).
Defined.

(** X15 at work: the houses are listed, one of the two has a valid price. *)
Lemma property_type_is_listed_iff_valid_price_witness :
  exists (s : stats) (t : type_stats),
    report_of Sample.sales = Report s
    /\ Dict.get label_eqb (Some "Maison"%string) (by_property_type s) = Some t
    /\ 1 <= type_valid_price_count t <= type_count t.
Proof.
  eexists. eexists. split; [reflexivity|]. split; [reflexivity|].
  exact (proj2 (proj2 (proj2 (property_type_is_listed_iff_valid_price
                                (I := CPython.left_to_right)
                                Sample.sales _ (Some "Maison"%string) eq_refl)
                             _ eq_refl))).
Defined.

(** X16 at work: three departments, [None] among them, and four communes. *)
Lemma unique_counts_count_distinct_codes_witness :
  exists s : stats,
    report_of Sample.sales = Report s
    /\ nb_unique_departments (geographic_stats s)
       = List.length (departments (geographic_stats s))
    /\ nb_unique_departments (geographic_stats s) = 3
    /\ nb_unique_communes (geographic_stats s) = 4.
Proof.
  eexists. split; [reflexivity|]. split; [|split; reflexivity].
  exact (proj1 (proj2 (proj2 (unique_counts_count_distinct_codes
                                (I := CPython.left_to_right)
                                Sample.sales _ eq_refl)))).
Defined.

End SampleRuns.

(** X4 at work: two pages with a reference, the last page, and an answer
    that is never asked for. *)
Lemma pages_are_concatenated_in_order_witness :
  Fetcher.fetch_all_pages_dvf_api "2.29,48.85,2.30,48.86" "2022"
    (Script.serve [([1; 2], "page2"%string); ([3], "page3"%string)] [4]
       ++ [Fetcher.HTTPError 500])
  = (Fetcher.Returned [1; 2; 3; 4],
     [Fetcher.Get DVF_API_BASE_URL
        (Fetcher.initial_params "2.29,48.85,2.30,48.86" "2022");
      Fetcher.Get "page2" []; Fetcher.Get "page3" []]).
Proof.
  refine (pages_are_concatenated_in_order "2.29,48.85,2.30,48.86" "2022"
            [([1; 2], "page2"%string); ([3], "page3"%string)] [4]
            [Fetcher.HTTPError 500] _ _ _).
  - discriminate.
  - discriminate.
  - repeat constructor; discriminate.
Defined.

(** X5 at work: four failures in all, never three on one page. *)
Lemma fetch_survives_short_failure_runs_witness :
  fst (Fetcher.fetch_all_pages_dvf_api "2.29,48.85,2.30,48.86" "2022"
         [Fetcher.RequestException; Fetcher.HTTPError 500;
          Fetcher.Page [1] (Some "page2"%string);
          Fetcher.HTTPError 502; Fetcher.RequestException; Fetcher.Page [2] None])
  = Fetcher.Returned [1; 2]
  /\ fst (Fetcher.fetch_all_pages_dvf_api "2.29,48.85,2.30,48.86" "2022"
            [Fetcher.RequestException; Fetcher.HTTPError 500;
             Fetcher.Page [1] (Some "page2"%string);
             Fetcher.HTTPError 502; Fetcher.RequestException; Fetcher.Page [2] None])
     <> Fetcher.Failed (Py.APIError Py.HTTPAfterRetries).
Proof.
  split; [reflexivity|].
  refine (fetch_survives_short_failure_runs "2.29,48.85,2.30,48.86" "2022"
            [Fetcher.RequestException; Fetcher.HTTPError 500;
             Fetcher.Page [1] (Some "page2"%string);
             Fetcher.HTTPError 502; Fetcher.RequestException; Fetcher.Page [2] None]
            _ _ eq_refl (Py.APIError Py.HTTPAfterRetries)); discriminate.
Defined.

(* ================================================================= *)
(** * The median by type and the median of the report *)

Section ByTypeFacts.
Import Py Refiner Statistics ByType.
Context {I : Interpreter}.

Lemma label_eqb_sym (a b : label) : label_eqb a b = label_eqb b a.
Proof.
  destruct a as [x|]; destruct b as [y|]; simpl; try reflexivity.
  apply String.eqb_sym.
Qed.

(** On normalized entries whose prices of the type are [> 0] when present,
    the filter of the helper selects the valid entries of the type. *)
Lemma of_type_selects_valid (data : list refined_entry) (k : label) :
  Forall normalized data ->
  (forall e p, In e data -> property_type_label e = k ->
               price_per_m2 e = Some p -> PyFloat.positive p) ->
  filter (of_type k) data
  = filter valid_price (filter (fun e => label_eqb k (property_type_label e)) data).
Proof.
  intros Hn Hpos. induction Hn as [|e data [He _] Hn IH]; simpl; [reflexivity|].
  rewrite IH by (intros e' p Hin; apply Hpos; right; exact Hin).
  unfold of_type at 1. rewrite (label_eqb_sym (property_type_label e) k).
  destruct (label_eqb k (property_type_label e)) eqn:Ek; simpl; [|reflexivity].
  apply label_eqb_eq in Ek.
  unfold valid_price. rewrite He. unfold price_per_area.
  destruct (PyFloat.gtb (built_area e) 0 && PyFloat.gtb (land_value e) 0) eqn:Eg.
  - rewrite (Hpos e _ (or_introl eq_refl) (eq_sym Ek)
               ltac:(rewrite He; unfold price_per_area; rewrite Eg; reflexivity)).
    reflexivity.
  - reflexivity.
Qed.

Lemma valid_prices_are_floats (g : list refined_entry) :
  map price_per_m2 (filter valid_price g) = map Some (map price (filter valid_price g)).
Proof.
  induction g as [|e g IH]; simpl; [reflexivity|].
  destruct (valid_price e) eqn:Ev; [|exact IH].
  simpl. rewrite IH. unfold valid_price in Ev. unfold price.
  destruct (price_per_m2 e); [reflexivity | discriminate].
Qed.

Lemma all_floats_some (xs : list float) : all_floats (map Some xs) = Some xs.
Proof.
  induction xs as [|x xs IH]; simpl; [reflexivity|]. rewrite IH. reflexivity.
Qed.

(** X17.  On normalized entries whose prices of a type are [> 0] where
    present, [calculate_median_price_by_type] never raises and goes with
    the report as follows: it returns [None] exactly when the type is not
    listed in [by_property_type]; on an odd number of valid prices it
    returns the median of the report; on an even number it returns the
    mean of the report's median and of the sorted price just below it
    (the report takes the upper of the two middle prices, the helper
    averages them). *)
Theorem median_by_type_against_the_report :
  forall (data : list refined_entry) (s : stats) (k : label),
    calculate_comprehensive_statistics data = Report s ->
    Forall normalized data ->
    (forall e p, In e data -> property_type_label e = k ->
                 price_per_m2 e = Some p -> PyFloat.positive p) ->
    let prices :=
      map price (filter valid_price
                   (filter (fun e => label_eqb k (property_type_label e)) data)) in
    match Dict.get label_eqb k (by_property_type s) with
    | None => calculate_median_price_by_type data k = Ok None
    | Some t =>
        calculate_median_price_by_type data k =
          Ok (Some (if Nat.odd (List.length prices)
                    then type_price_median t
                    else ((nth (List.length prices / 2 - 1) (py_sorted prices) 0
                           + type_price_median t) / 2)%float))
    end.
Proof.
  intros data s k Hs Hn Hpos prices.
  destruct (report_of_nonempty data s Hs) as (_ & _ & _ & _ & _ & _ & Hty & _).
  rewrite Hty, (get_by_key type_stats_of property_type_label k data eq_refl).
  unfold calculate_median_price_by_type.
  rewrite (of_type_selects_valid data k Hn Hpos).
  rewrite valid_prices_are_floats. fold prices.
  unfold type_stats_of.
  destruct (filter valid_price
              (filter (fun e => label_eqb k (property_type_label e)) data))
    as [|e1 [|e2 g]] eqn:E; subst prices; cbn [map].
  - reflexivity.
  - cbn [type_price_median List.length Nat.odd Nat.even negb]. unfold median.
    reflexivity.
  - change (Some (price e1) :: Some (price e2) :: map Some (map price g))
      with (map Some (price e1 :: price e2 :: map price g)).
    rewrite (all_floats_some (price e1 :: price e2 :: map price g)).
    cbn [type_price_median]. unfold median.
    destruct (Nat.odd (List.length (price e1 :: price e2 :: map price g)));
      reflexivity.
Qed.

End ByTypeFacts.

(** X17 at work: the three valid flat prices of the sample, an odd number,
    give the median of the report, 3500. *)
Lemma median_by_type_against_the_report_witness :
  exists (s : Statistics.stats) (t : Statistics.type_stats),
    Statistics.calculate_comprehensive_statistics (I := CPython.left_to_right)
      Sample.sales = Statistics.Report s
    /\ Forall Statistics.normalized Sample.sales
    /\ Dict.get Statistics.label_eqb (Some "Appartement"%string)
         (Statistics.by_property_type s) = Some t
    /\ ByType.calculate_median_price_by_type Sample.sales (Some "Appartement"%string)
       = Py.Ok (Some (Statistics.type_price_median t))
    /\ Statistics.type_price_median t = 3500%float.
Proof.
  assert (Hn : Forall Statistics.normalized Sample.sales)
    by (repeat constructor; reflexivity).
  assert (Hpos : forall e p, In e Sample.sales ->
            Refiner.property_type_label e = Some "Appartement"%string ->
            Refiner.price_per_m2 e = Some p -> PyFloat.positive p).
  { intros e p Hin _ Hp.
    assert (Hv : Statistics.valid_price e = true \/ Refiner.price_per_m2 e = None).
    { simpl in Hin.
      destruct Hin as [<-|[<-|[<-|[<-|[<-|[]]]]]];
        ((left; reflexivity) || (right; reflexivity)). }
    destruct Hv as [Hv|Hv]; [|congruence].
    unfold Statistics.valid_price in Hv. rewrite Hp in Hv. exact Hv. }
  eexists. eexists. split; [reflexivity|]. split; [exact Hn|].
  split; [reflexivity|]. split; [|reflexivity].
  exact (median_by_type_against_the_report (I := CPython.left_to_right)
           Sample.sales _ (Some "Appartement"%string) eq_refl Hn Hpos).
Defined.

(* ================================================================= *)
(** * Amenities: filing the places and listing them *)

Section PlacesFacts.
Import Py Places.

Lemma filled_iff (s : string) : filled s = true <-> s <> EmptyString.
Proof.
  unfold filled. destruct (String.eqb s "") eqn:E.
  - apply String.eqb_eq in E. split; [discriminate | congruence].
  - apply String.eqb_neq in E. split; [intros _; exact E | reflexivity].
Qed.

(** The [break]: the category of a place is read under the first key of
    the list whose tag is filled. *)
Lemma first_category_spec (p : place) (keys : list string) (key value : string) :
  first_category p keys = Some (key, value) <->
  exists pre post,
    keys = pre ++ key :: post /\ Forall (unfilled p) pre
    /\ tag p key = Some value /\ value <> EmptyString.
Proof.
  split.
  - induction keys as [|k keys IH]; simpl; [discriminate|].
    destruct (tag p k) as [c|] eqn:Et.
    + destruct (filled c) eqn:Ef.
      * intros H. inversion H; subst. exists [], keys.
        repeat split; [constructor | exact Et | apply filled_iff, Ef].
      * intros H. destruct (IH H) as (pre & post & -> & Hp & Hk & Hv).
        exists (k :: pre), post. repeat split; try assumption.
        constructor; [|exact Hp]. right. rewrite Et. f_equal.
        destruct (String.eqb c "") eqn:E; [apply String.eqb_eq, E|].
        unfold filled in Ef. rewrite E in Ef. discriminate.
    + intros H. destruct (IH H) as (pre & post & -> & Hp & Hk & Hv).
      exists (k :: pre), post. repeat split; try assumption.
      constructor; [left; exact Et | exact Hp].
  - intros (pre & post & -> & Hp & Hk & Hv).
    induction Hp as [|k pre [Hu|Hu] Hp IH]; simpl.
    + rewrite Hk. apply filled_iff in Hv. rewrite Hv. reflexivity.
    + rewrite Hu. exact IH.
    + rewrite Hu. simpl. exact IH.
Qed.

Lemma first_category_key (p : place) (keys : list string) (kc : string * string) :
  first_category p keys = Some kc -> In (fst kc) keys.
Proof.
  destruct kc as [key value]. intros H.
  apply first_category_spec in H. destruct H as (pre & post & -> & _).
  apply in_or_app. right. left. reflexivity.
Qed.

(** Splitting at the first colon undoes the making of the key, colons in
    the tag or not: no key of the list holds a colon. *)
Lemma split_unique_category_key (key value : string) :
  In key category_keys ->
  split_colon (unique_category_key (key, value)) = Some (key, value).
Proof.
  unfold category_keys, unique_category_key. simpl.
  intros [<-|[<-|[<-|[<-|[<-|[<-|[<-|[]]]]]]]]; reflexivity.
Qed.

(** [name] is in the set under [k]. *)
Let listed (d : Dict.dict string (list string)) (k name : string) : Prop :=
  exists names, In (k, names) d /\ In name names.

Lemma in_add (name n : string) (names : list string) :
  In n (add name names) <-> In n names \/ n = name.
Proof.
  unfold add. destruct (existsb (String.eqb name) names) eqn:E.
  - split; [tauto|]. intros [H| ->]; [exact H|].
    apply existsb_exists in E. destruct E as (x & Hx & Ex).
    apply String.eqb_eq in Ex. subst x. exact Hx.
  - rewrite in_app_iff. simpl. intuition congruence.
Qed.

Lemma nodup_add (name : string) (names : list string) :
  NoDup names -> NoDup (add name names).
Proof.
  intros H. unfold add. destruct (existsb (String.eqb name) names) eqn:E; [exact H|].
  apply NoDup_rev in H. rewrite <- (rev_involutive (names ++ [name])).
  apply NoDup_rev. rewrite rev_app_distr. simpl. constructor; [|exact H].
  rewrite <- in_rev. intros Hin.
  assert (existsb (String.eqb name) names = true); [|congruence].
  apply existsb_exists. exists name. split; [exact Hin | apply String.eqb_refl].
Qed.

Lemma listed_upsert (d : Dict.dict string (list string)) (k name k' n' : string) :
  listed (Dict.upsert String.eqb k [] (add name) d) k' n'
  <-> listed d k' n' \/ (k' = k /\ n' = name).
Proof.
  unfold listed. induction d as [|[k1 ns] d IH]; simpl.
  - split.
    + intros (names & [H|[]] & Hn). inversion H; subst.
      apply in_add in Hn. destruct Hn as [[]| ->]. right. split; reflexivity.
    + intros [(names & [] & _)|[-> ->]]. exists (add name []).
      split; [left; reflexivity | apply in_add; right; reflexivity].
  - destruct (String.eqb k k1) eqn:Ek.
    + apply String.eqb_eq in Ek. subst k1. split.
      * intros (names & [H|H] & Hn).
        -- inversion H; subst. apply in_add in Hn. destruct Hn as [Hn| ->].
           ++ left. exists ns. split; [left; reflexivity | exact Hn].
           ++ right. split; reflexivity.
        -- left. exists names. split; [right; exact H | exact Hn].
      * intros [(names & [H|H] & Hn)|[-> ->]].
        -- inversion H; subst. exists (add name names).
           split; [left; reflexivity | apply in_add; left; exact Hn].
        -- exists names. split; [right; exact H | exact Hn].
        -- exists (add name ns).
           split; [left; reflexivity | apply in_add; right; reflexivity].
    + split.
      * intros (names & [H|H] & Hn).
        -- left. exists names. split; [left; exact H | exact Hn].
        -- destruct (proj1 IH (ex_intro _ names (conj H Hn))) as [(ns' & H1 & H2)|H'].
           ++ left. exists ns'. split; [right; exact H1 | exact H2].
           ++ right. exact H'.
      * intros [(names & [H|H] & Hn)|H'].
        -- exists names. split; [left; exact H | exact Hn].
        -- destruct (proj2 IH (or_introl (ex_intro _ names (conj H Hn))))
             as (ns' & H1 & H2).
           exists ns'. split; [right; exact H1 | exact H2].
        -- destruct (proj2 IH (or_intror H')) as (ns' & H1 & H2).
           exists ns'. split; [right; exact H1 | exact H2].
Qed.

Lemma key_of_upsert (d : Dict.dict string (list string)) (k name k' : string)
    (ns' : list string) :
  In (k', ns') (Dict.upsert String.eqb k [] (add name) d) ->
  k' = k \/ exists ns, In (k', ns) d.
Proof.
  induction d as [|[k1 ns] d IH]; simpl.
  - intros [H|[]]. inversion H. left. reflexivity.
  - destruct (String.eqb k k1) eqn:Ek.
    + apply String.eqb_eq in Ek. subst k1. intros [H|H].
      * inversion H. left. reflexivity.
      * right. exists ns'. right. exact H.
    + intros [H|H].
      * inversion H; subst. right. exists ns'. left. reflexivity.
      * destruct (IH H) as [->|(ns0 & H0)]; [left; reflexivity|].
        right. exists ns0. right. exact H0.
Qed.

Lemma nodup_of_upsert (d : Dict.dict string (list string)) (k name : string) :
  (forall k' ns, In (k', ns) d -> NoDup ns) ->
  forall k' ns, In (k', ns) (Dict.upsert String.eqb k [] (add name) d) -> NoDup ns.
Proof.
  induction d as [|[k1 ns1] d IH]; simpl; intros Hd k' ns.
  - intros [H|[]]. inversion H. apply nodup_add. constructor.
  - destruct (String.eqb k k1).
    + intros [H|H].
      * inversion H. apply nodup_add. apply (Hd k1 ns1). left. reflexivity.
      * apply (Hd k' ns). right. exact H.
    + intros [H|H].
      * apply (Hd k' ns). left. exact H.
      * apply (IH (fun k0 n0 H0 => Hd k0 n0 (or_intror H0)) k' ns H).
Qed.

(** What a place adds to the dictionary: a name under a key. *)
Let filing (p : place) : option (string * string) :=
  match tag p "name" with
  | Some name =>
      if filled name then
        match first_category p category_keys with
        | Some kc => Some (unique_category_key kc, name)
        | None => None
        end
      else None
  | None => None
  end.

Lemma listed_file (d : Dict.dict string (list string)) (p : place) (k n : string) :
  listed (file d p) k n <-> listed d k n \/ filing p = Some (k, n).
Proof.
  unfold file, filing. destruct (tag p "name") as [name|].
  - destruct (filled name).
    + destruct (first_category p category_keys) as [kc|].
      * rewrite listed_upsert. split; (intros [H|H]; [left; exact H | right]).
        -- destruct H as [-> ->]. reflexivity.
        -- inversion H. split; reflexivity.
      * split; [tauto | intros [H|H]; [exact H | discriminate]].
    + split; [tauto | intros [H|H]; [exact H | discriminate]].
  - split; [tauto | intros [H|H]; [exact H | discriminate]].
Qed.

Lemma listed_fold (elements : list place) (d : Dict.dict string (list string))
    (k n : string) :
  listed (fold_left file elements d) k n
  <-> listed d k n \/ exists p, In p elements /\ filing p = Some (k, n).
Proof.
  revert d. induction elements as [|p elements IH]; intros d; simpl.
  - split; [tauto | intros [H|(p & [] & _)]; exact H].
  - rewrite IH, listed_file. split.
    + intros [[H|H]|(q & Hq & Hf)].
      * left. exact H.
      * right. exists p. split; [left; reflexivity | exact H].
      * right. exists q. split; [right; exact Hq | exact Hf].
    + intros [H|(q & [<-|Hq] & Hf)].
      * left. left. exact H.
      * left. right. exact Hf.
      * right. exists q. split; assumption.
Qed.

(** Every key of the dictionary is made of a key of the list and a tag. *)
Let made (k : string) : Prop :=
  exists key value, In key category_keys /\ k = unique_category_key (key, value).

Lemma keys_of_fold (elements : list place) (d : Dict.dict string (list string)) :
  (forall k ns, In (k, ns) d -> made k) ->
  forall k ns, In (k, ns) (fold_left file elements d) -> made k.
Proof.
  revert d. induction elements as [|p elements IH]; intros d Hd; simpl; [exact Hd|].
  apply IH. intros k ns. unfold file.
  destruct (tag p "name") as [name|]; [|apply Hd].
  destruct (filled name); [|apply Hd].
  destruct (first_category p category_keys) as [kc|] eqn:Ec; [|apply Hd].
  intros H. apply key_of_upsert in H. destruct H as [->|(ns0 & H0)].
  - exists (fst kc), (snd kc). split.
    + apply (first_category_key p _ kc Ec).
    + destruct kc; reflexivity.
  - apply (Hd k ns0 H0).
Qed.

Lemma sets_of_fold (elements : list place) (d : Dict.dict string (list string)) :
  (forall k ns, In (k, ns) d -> NoDup ns) ->
  forall k ns, In (k, ns) (fold_left file elements d) -> NoDup ns.
Proof.
  revert d. induction elements as [|p elements IH]; intros d Hd; simpl; [exact Hd|].
  apply IH. unfold file.
  destruct (tag p "name") as [name|]; [|apply Hd].
  destruct (filled name); [|apply Hd].
  destruct (first_category p category_keys) as [kc|]; [|apply Hd].
  apply nodup_of_upsert, Hd.
Qed.

Lemma in_insert_name (x n : string) (l : list string) :
  In n (insert_name x l) <-> n = x \/ In n l.
Proof.
  induction l as [|y l IH]; simpl.
  - intuition congruence.
  - destruct (String.ltb y x); simpl; [rewrite IH|]; intuition congruence.
Qed.

Lemma in_sorted_names (n : string) (l : list string) :
  In n (sorted_names l) <-> In n l.
Proof.
  induction l as [|x l IH]; simpl; [tauto|].
  rewrite in_insert_name, IH. intuition congruence.
Qed.

Variable capitalize : string -> string.

Lemma in_rows_of (category subcategory : string) (names : list string)
    (c sub name : string) :
  In [c; sub; name] (rows_of capitalize category subcategory names)
  <-> c = category /\ sub = capitalize subcategory
      /\ In name names /\ name <> EmptyString.
Proof.
  unfold rows_of. rewrite in_map_iff. split.
  - intros (x & Hx & Hin). inversion Hx; subst.
    apply filter_In in Hin. destruct Hin as [Hin Hf].
    apply (proj1 (in_sorted_names _ _)) in Hin. apply filled_iff in Hf.
    split; [reflexivity|]. split; [reflexivity|]. split; assumption.
  - intros (-> & -> & Hin & Hf). exists name. split; [reflexivity|].
    apply filter_In. split; [apply in_sorted_names, Hin | apply filled_iff, Hf].
Qed.

(** The rows of a dictionary whose keys all hold a colon. *)
Lemma rows_of_retrieve (d : Dict.dict string (list string)) (category : string) :
  (forall k ns, In (k, ns) d -> exists a b, split_colon k = Some (a, b)) ->
  exists data,
    retrieve_places_data capitalize d category = Ok data
    /\ forall c sub name,
         In [c; sub; name] data <->
         exists k ns a b,
           In (k, ns) d /\ split_colon k = Some (a, b)
           /\ c = category /\ sub = capitalize b /\ In name ns /\ name <> EmptyString.
Proof.
  induction d as [|[k ns] d IH]; intros Hd; simpl.
  - exists []. split; [reflexivity|]. intros c sub name. split; [intros []|].
    intros (k & ns & a & b & [] & _).
  - destruct (Hd k ns (or_introl eq_refl)) as (a & b & Es). rewrite Es.
    destruct (IH (fun k0 n0 H0 => Hd k0 n0 (or_intror H0))) as (data & -> & Hdata).
    eexists. split; [reflexivity|]. intros c sub name.
    rewrite in_app_iff, in_rows_of, Hdata. split.
    + intros [(-> & -> & Hin & Hf)|(k0 & n0 & a0 & b0 & H0 & Hrest)].
      * exists k, ns, a, b. repeat split; try assumption. left. reflexivity.
      * exists k0, n0, a0, b0. split; [right; exact H0 | exact Hrest].
    + intros (k0 & n0 & a0 & b0 & [H0|H0] & Es0 & Hc & Hsub & Hin & Hf).
      * inversion H0; subst k0 n0. rewrite Es in Es0. inversion Es0; subst.
        left. tauto.
      * right. exists k0, n0, a0, b0. tauto.
Qed.

(** X18.  Filing the places and listing them never raises, and the rows
    are those of the named places that have a category: [[category, sub,
    name]] is a row exactly when some element has the non-empty name
    [name] and [sub] is the capitalised tag found under the first of
    amenity, shop, office, healthcare, highway, railway, aeroway whose tag
    is present and non-empty.  A place without a name, or with none of
    these tags, gives no row; a colon in the tag is kept. *)
Theorem named_places_are_listed_under_their_first_category :
  forall (elements : list place) (category : string),
  exists data,
    retrieve_places_data capitalize (sort_places_by_category elements) category
    = Ok data
    /\ forall c sub name,
         In [c; sub; name] data <->
         c = category
         /\ exists p pre key post value,
              In p elements
              /\ tag p "name" = Some name /\ name <> EmptyString
              /\ category_keys = pre ++ key :: post
              /\ Forall (unfilled p) pre
              /\ tag p key = Some value /\ value <> EmptyString
              /\ sub = capitalize value.
Proof.
  intros elements category.
  assert (Hmade : forall k ns, In (k, ns) (sort_places_by_category elements) -> made k)
    by (apply keys_of_fold; intros k ns []).
  destruct (rows_of_retrieve (sort_places_by_category elements) category)
    as (data & Hr & Hdata).
  { intros k ns H. destruct (Hmade k ns H) as (key & value & Hk & ->).
    exists key, value. apply split_unique_category_key, Hk. }
  exists data. split; [exact Hr|]. intros c sub name. rewrite Hdata. split.
  - intros (k & ns & a & b & Hin & Es & -> & -> & Hn & Hf).
    split; [reflexivity|].
    assert (Hl : listed (sort_places_by_category elements) k name)
      by (exists ns; split; assumption).
    apply listed_fold in Hl. destruct Hl as [(ns0 & [] & _)|(p & Hp & Hfile)].
    unfold filing in Hfile.
    destruct (tag p "name") as [name'|] eqn:Et; [|discriminate].
    destruct (filled name'); [|discriminate].
    destruct (first_category p category_keys) as [[key value]|] eqn:Ec; [|discriminate].
    inversion Hfile; subst name' k.
    rewrite (split_unique_category_key key value
               (first_category_key p _ _ Ec)) in Es.
    inversion Es; subst a b.
    apply first_category_spec in Ec.
    destruct Ec as (pre & post & Hk & Hpre & Hv & Hne).
    exists p, pre, key, post, value. repeat split; assumption.
  - intros (-> & p & pre & key & post & value
            & Hp & Hname & Hf & Hk & Hpre & Hv & Hne & ->).
    assert (Ec : first_category p category_keys = Some (key, value)).
    { apply first_category_spec. exists pre, post. repeat split; assumption. }
    assert (Hl : listed (sort_places_by_category elements)
                   (unique_category_key (key, value)) name).
    { apply listed_fold. right. exists p. split; [exact Hp|].
      unfold filing. rewrite Hname.
      apply filled_iff in Hf. rewrite Hf, Ec. reflexivity. }
    destruct Hl as (ns & Hin & Hn).
    exists (unique_category_key (key, value)), ns, key, value.
    repeat split; try assumption.
    apply split_unique_category_key, (first_category_key p _ _ Ec).
Qed.

End PlacesFacts.

Section PlacesOrder.
Import Py Places.

Lemma ltb_total (x y : string) :
  String.ltb y x = false -> y <> x -> String.ltb x y = true.
Proof.
  unfold String.ltb. rewrite (String.compare_antisym x y).
  destruct (String.compare y x) eqn:E; simpl; try reflexivity; try discriminate.
  intros _ H. destruct H. apply String.compare_eq_iff, E.
Qed.

Lemma above_is_filled (x y : string) : String.ltb x y = true -> filled y = true.
Proof.
  intros H. apply filled_iff. intros ->.
  unfold String.ltb in H. destruct x; simpl in H; discriminate.
Qed.

Lemma ascending_names_tail (x : string) (l : list string) :
  ascending_names (x :: l) -> ascending_names l.
Proof. destruct l as [|y l]; simpl; tauto. Qed.

Lemma insert_name_ascending (x : string) (l : list string) :
  ascending_names l -> ~ In x l -> ascending_names (insert_name x l).
Proof.
  induction l as [|y l IH]; intros Ha Hx; [exact I|].
  cbn [insert_name]. destruct (String.ltb y x) eqn:E.
  - assert (Hl : ascending_names (insert_name x l)).
    { apply IH; [apply (ascending_names_tail y), Ha|].
      intros H. apply Hx. right. exact H. }
    destruct l as [|z l]; [simpl; auto|].
    cbn [insert_name] in *. destruct (String.ltb z x).
    + split; [apply Ha | exact Hl].
    + split; [exact E | exact Hl].
  - split; [|exact Ha]. apply ltb_total; [exact E|].
    intros ->. apply Hx. left. reflexivity.
Qed.

Lemma sorted_names_ascending (l : list string) :
  NoDup l -> ascending_names (sorted_names l).
Proof.
  induction 1 as [|x l Hx Hl IH]; [exact I|].
  cbn [sorted_names]. apply insert_name_ascending; [exact IH|].
  rewrite in_sorted_names. exact Hx.
Qed.

Lemma ascending_after_head (x : string) (l : list string) :
  ascending_names (x :: l) -> forall y, In y l -> filled y = true.
Proof.
  revert x. induction l as [|z l IH]; intros x Ha y []; subst.
  - apply (above_is_filled x), Ha.
  - apply (IH z); [apply Ha | assumption].
Qed.

Lemma filter_all (A : Type) (f : A -> bool) (l : list A) :
  (forall y, In y l -> f y = true) -> filter f l = l.
Proof.
  induction l as [|a l IH]; intros H; simpl; [reflexivity|].
  rewrite (H a (or_introl eq_refl)), IH; [reflexivity|].
  intros y Hy. apply H. right. exact Hy.
Qed.

Lemma filled_names_ascending (l : list string) :
  ascending_names l -> ascending_names (filter filled l).
Proof.
  destruct l as [|x l]; intros Ha; [exact I|].
  cbn [filter]. rewrite (filter_all _ filled l (ascending_after_head x l Ha)).
  destruct (filled x); [exact Ha | apply (ascending_names_tail x), Ha].
Qed.

Variable capitalize : string -> string.

(** Listing what [sort_places_by_category] filed does not raise. *)
Lemma named_places_data_exists (elements : list place) (category : string) :
  exists data,
    retrieve_places_data capitalize (sort_places_by_category elements) category
    = Ok data.
Proof.
  destruct (rows_of_retrieve capitalize (sort_places_by_category elements) category)
    as (data & Hr & _); [|exists data; exact Hr].
  intros k ns H.
  destruct (keys_of_fold elements [] (fun k0 n0 (H0 : In (k0, n0) []) =>
              match H0 with end) k ns H) as (key & value & Hk & ->).
  exists key, value. apply split_unique_category_key, Hk.
Qed.

(** Only non-empty names are filed. *)
Lemma names_of_fold_filled (elements : list place) (k : string)
    (names : list string) (n : string) :
  In (k, names) (sort_places_by_category elements) -> In n names ->
  n <> EmptyString.
Proof.
  intros Hin Hn.
  destruct (proj1 (listed_fold elements [] k n)
              (ex_intro _ names (conj Hin Hn))) as [(ns0 & [] & _)|(p & _ & Hf)].
  destruct (tag p "name") as [name|]; [|discriminate].
  destruct (filled name) eqn:E; [|discriminate].
  destruct (first_category p category_keys); [|discriminate].
  inversion Hf; subst. apply filled_iff, E.
Qed.

(** The rows of one key are contiguous, in ascending order of the names. *)
Lemma rows_of_a_key (d : Dict.dict string (list string)) (category : string)
    (data : list (list string)) (k : string) (names : list string) :
  retrieve_places_data capitalize d category = Ok data ->
  In (k, names) d -> NoDup names ->
  exists key subcategory shown pre post,
    split_colon k = Some (key, subcategory)
    /\ data = pre ++ map (fun name => [category; capitalize subcategory; name]) shown
                  ++ post
    /\ ascending_names shown
    /\ forall n, In n shown <-> In n names /\ n <> EmptyString.
Proof.
  revert data. induction d as [|[k1 ns1] d IH]; intros data Hr Hin Hnd; [destruct Hin|].
  cbn [retrieve_places_data] in Hr.
  destruct (split_colon k1) as [[key1 sub1]|] eqn:Es; [|discriminate].
  destruct (retrieve_places_data capitalize d category) as [data'|e] eqn:Er;
    [|discriminate].
  inversion Hr; subst data. destruct Hin as [Hin|Hin].
  - inversion Hin; subst k1 ns1.
    exists key1, sub1, (filter filled (sorted_names names)), [], data'.
    split; [exact Es|]. split; [reflexivity|].
    split; [apply filled_names_ascending, sorted_names_ascending, Hnd|].
    intros n. rewrite filter_In, in_sorted_names, filled_iff. tauto.
  - destruct (IH data' eq_refl Hin Hnd)
      as (key & sub & shown & pre & post & Hk & -> & Ha & Hs).
    exists key, sub, shown, (rows_of capitalize category sub1 ns1 ++ pre), post.
    split; [exact Hk|]. split; [rewrite <- app_assoc; reflexivity|].
    split; assumption.
Qed.

(** X19.  In the listing of the filed places, the names filed under one
    key of the dictionary come out as one run of rows, each name once and
    in strictly ascending order (by code point), under the capitalised
    part of the key after its first colon. *)
Theorem names_of_a_category_come_sorted :
  forall (elements : list place) (category k : string) (names : list string),
    In (k, names) (sort_places_by_category elements) ->
    exists data key subcategory shown pre post,
      retrieve_places_data capitalize (sort_places_by_category elements) category
      = Ok data
      /\ In key category_keys
      /\ k = unique_category_key (key, subcategory)
      /\ data = pre ++ map (fun name => [category; capitalize subcategory; name]) shown
                    ++ post
      /\ ascending_names shown
      /\ NoDup names
      /\ forall n, In n shown <-> In n names.
Proof.
  intros elements category k names Hin.
  destruct (named_places_data_exists elements category) as (data & Hr).
  assert (Hnd : NoDup names)
    by (apply (sets_of_fold elements [] (fun k0 n0 (H0 : In (k0, n0) []) =>
                 match H0 with end) k names Hin)).
  destruct (rows_of_a_key _ category data k names Hr Hin Hnd)
    as (key & sub & shown & pre & post & Hk & Hd & Ha & Hs).
  destruct (keys_of_fold elements [] (fun k0 n0 (H0 : In (k0, n0) []) =>
              match H0 with end) k names Hin) as (key' & value & Hkey & Hmade).
  assert (Hkv : key = key' /\ sub = value).
  { rewrite Hmade, (split_unique_category_key key' value Hkey) in Hk.
    inversion Hk. split; reflexivity. }
  destruct Hkv as [-> ->].
  exists data, key', value, shown, pre, post.
  repeat split; try assumption.
  - intros Hn. apply Hs, Hn.
  - intros Hn. apply Hs. split; [exact Hn|].
    apply (names_of_fold_filled elements k names n Hin Hn).
Qed.

End PlacesOrder.

(** X19 at work: the two cafes named Zinc and the bakery-cafe Abri are
    filed under amenity:cafe, as Zinc then Abri. *)
Lemma names_of_a_category_come_sorted_witness :
  In ("amenity:cafe", ["Zinc"; "Abri"])%string
     (Places.sort_places_by_category Nearby.elements)
  /\ exists data key subcategory shown pre post,
       Places.retrieve_places_data (fun s => s)
         (Places.sort_places_by_category Nearby.elements) "Food and Drink"
       = Py.Ok data
       /\ In key Places.category_keys
       /\ "amenity:cafe"%string = Places.unique_category_key (key, subcategory)
       /\ data = pre ++ map (fun name => ["Food and Drink"; subcategory; name]%string)
                         shown ++ post
       /\ Places.ascending_names shown
       /\ NoDup ["Zinc"; "Abri"]%string
       /\ forall n, In n shown <-> In n ["Zinc"; "Abri"]%string.
Proof.
  assert (H : In ("amenity:cafe", ["Zinc"; "Abri"])%string
                (Places.sort_places_by_category Nearby.elements))
    by (left; reflexivity).
  split; [exact H|].
  exact (names_of_a_category_come_sorted (fun s => s) Nearby.elements
           "Food and Drink" "amenity:cafe" ["Zinc"; "Abri"]%string H).
Defined.

Section PlacesErrors.
Import Py Places.
Variable capitalize : string -> string.

Lemma split_colon_none (s : string) :
  split_colon s = None <-> ~ In ":"%char (list_ascii_of_string s).
Proof.
  induction s as [|c s IH]; simpl.
  - split; [intros _ [] | reflexivity].
  - destruct (Ascii.eqb c ":") eqn:E.
    + apply Ascii.eqb_eq in E. subst c. split; [discriminate|].
      intros H. destruct H. left. reflexivity.
    + apply Ascii.eqb_neq in E. destruct (split_colon s) as [[a b]|].
      * split; [discriminate|]. intros H.
        assert (Hs : ~ In ":"%char (list_ascii_of_string s))
          by (intros Hin; apply H; right; exact Hin).
        apply IH in Hs. discriminate.
      * split; [|reflexivity]. intros _ [Hc|Hin]; [exact (E Hc)|].
        apply (proj1 IH eq_refl), Hin.
Qed.

(** X20.  [retrieve_places_data] raises exactly on a dictionary with a
    key that holds no colon, and then it is [ValueError] (the unpacking of
    the split); every key of a dictionary it lists holds a colon. *)
Theorem listing_raises_on_a_key_without_colon :
  forall (d : Dict.dict string (list string)) (category : string),
    match retrieve_places_data capitalize d category with
    | Ok _ => forall k, In k (Dict.keys d) -> In ":"%char (list_ascii_of_string k)
    | Raise e =>
        e = ValueError
        /\ exists k, In k (Dict.keys d) /\ ~ In ":"%char (list_ascii_of_string k)
    end.
Proof.
  intros d category. induction d as [|[k ns] d IH]; simpl.
  - intros k [].
  - destruct (split_colon k) as [[a b]|] eqn:Es.
    + assert (Hk : In ":"%char (list_ascii_of_string k)).
      { destruct (in_dec Ascii.ascii_dec ":"%char (list_ascii_of_string k))
          as [H|H]; [exact H|].
        apply split_colon_none in H. congruence. }
      destruct (retrieve_places_data capitalize d category) as [data|e].
      * intros k' [<-|H]; [exact Hk | apply IH, H].
      * destruct IH as (-> & k' & Hin & Hno). split; [reflexivity|].
        exists k'. split; [right; exact Hin | exact Hno].
    + split; [reflexivity|]. exists k. split; [left; reflexivity|].
      apply split_colon_none, Es.
Qed.

End PlacesErrors.
